(** * Cosmos-Admin: form, dialog and data-access layer

    A shallow embedding of the TypeScript sources of the admin front-end:
    the tenant form's slug helper, the typed-confirmation delete dialog,
    the client and user forms with their zod schemas and submit handlers,
    the client dialog's error extraction, and the react-query bindings of
    [hooks/use-api] with their cache invalidation rules. *)

From Stdlib Require Import NArith Ascii String.
From stdpp Require Import gmap strings list fin_maps.

Local Open Scope N_scope.

(** ** JavaScript strings and values *)

Module JS.

(** A JavaScript string is a sequence of UTF-16 code units; [length] is
    the [.length] of the source and [=] is [===] on strings. *)
Definition jsstring : Type := list N.

(** String literals of the source (all of them ASCII). *)
Definition js (s : string) : jsstring :=
  List.map N_of_ascii (list_ascii_of_string s).

#[global] Arguments js : simpl never.

Definition jsstring_eqb (a b : jsstring) : bool :=
  bool_decide (a = b).

(** ECMAScript WhiteSpace and LineTerminator code units: what the regular
    expression class [\s] matches and what [String.prototype.trim] strips. *)
Definition is_space (c : N) : bool :=
  (9 <=? c) && (c <=? 13)
  || (c =? 32) || (c =? 160) || (c =? 5760)
  || (8192 <=? c) && (c <=? 8202)
  || (c =? 8232) || (c =? 8233) || (c =? 8239) || (c =? 8287)
  || (c =? 12288) || (c =? 65279).

Fixpoint trimStart (s : jsstring) : jsstring :=
  match s with
  | [] => []
  | c :: t => if is_space c then trimStart t else s
  end.

Definition trimEnd (s : jsstring) : jsstring :=
  rev (trimStart (rev s)).

(** [s.trim()] *)
Definition trim (s : jsstring) : jsstring :=
  trimEnd (trimStart s).

(** Truthiness of a string: the empty string is the only falsy one. *)
Definition str_truthy (s : jsstring) : bool :=
  match s with [] => false | _ => true end.

(** Truthiness of an optional string ([undefined] is falsy). *)
Definition opt_truthy (o : option jsstring) : bool :=
  match o with Some s => str_truthy s | None => false end.

(** JavaScript values as they occur in payloads and in thrown errors.
    [VObj e ps] is an object with own properties [ps]; [e] tells whether
    it is an instance of [Error]. *)
#[local] Set Warnings "-register-all".
Inductive jsval : Type :=
  | VUndefined
  | VNull
  | VBool (b : bool)
  | VNum (n : Z)
  | VStr (s : jsstring)
  | VArr (xs : list jsval)
  | VObj (is_error : bool) (props : list (string * jsval)).

Definition truthy (v : jsval) : bool :=
  match v with
  | VUndefined | VNull => false
  | VBool b => b
  | VNum n => negb (Z.eqb n 0)
  | VStr s => str_truthy s
  | VArr _ | VObj _ _ => true
  end.

Fixpoint assoc (k : string) (ps : list (string * jsval)) : jsval :=
  match ps with
  | [] => VUndefined
  | (k', v) :: t => if String.eqb k k' then v else assoc k t
  end.

(** Optional property access [v?.k]: [undefined] on [null] and
    [undefined], and on primitives, which carry none of the properties
    read in this code base. *)
Definition get (v : jsval) (k : string) : jsval :=
  match v with
  | VObj _ ps => assoc k ps
  | _ => VUndefined
  end.

(** [v instanceof Error] *)
Definition instanceof_Error (v : jsval) : bool :=
  match v with VObj e _ => e | _ => false end.

Definition of_opt (o : option jsstring) : jsval :=
  match o with Some s => VStr s | None => VUndefined end.

(** A stand-in for the e-mail format check, to run the schemas on
    concrete input: the text holds an at sign. *)
Definition hasAtSign (s : jsstring) : bool := existsb (N.eqb 64) s.

End JS.

Import JS.

(** ** components/tenants/tenant-form.tsx: [generateSlug] *)

Module TenantForm.

Definition hyphen : N := 45.

Definition is_lower (c : N) : bool := (97 <=? c) && (c <=? 122).
Definition is_digit (c : N) : bool := (48 <=? c) && (c <=? 57).
Definition is_hyphen (c : N) : bool := c =? hyphen.

(** The complement of the class [[^a-z0-9\s-]]: what the first
    [replace] keeps. *)
Definition kept (c : N) : bool :=
  is_lower c || is_digit c || is_space c || is_hyphen c.

(** [[a-z0-9-]] *)
Definition slug_char (c : N) : bool :=
  is_lower c || is_digit c || is_hyphen c.

(** [s.replace(/p+/g, r)] for a character class [p]: every maximal run of
    [p] becomes one [r]. [in_run] tells that the previous code unit
    belonged to the run being replaced. *)
Fixpoint replaceRuns (p : N -> bool) (r : jsstring) (in_run : bool)
    (s : jsstring) : jsstring :=
  match s with
  | [] => []
  | c :: t =>
      if p c then
        if in_run then replaceRuns p r true t
        else r ++ replaceRuns p r true t
      else c :: replaceRuns p r false t
  end.

(** No two consecutive hyphens. *)
Fixpoint no_double_hyphen (s : jsstring) : bool :=
  match s with
  | a :: (b :: _) as t => negb (is_hyphen a && is_hyphen b) && no_double_hyphen t
  | _ => true
  end.

Definition starts_with_hyphen (s : jsstring) : bool :=
  match s with c :: _ => is_hyphen c | [] => false end.

Section GenerateSlug.

(** [String.prototype.toLowerCase] is the runtime's (Unicode case
    conversion); the slug helper is taken over any such function. *)
Variable toLowerCase : jsstring -> jsstring.

Definition generateSlug (name : jsstring) : jsstring :=
  trim
    (replaceRuns is_hyphen [hyphen] false
       (replaceRuns is_space [hyphen] false
          (List.filter kept (toLowerCase name)))).

End GenerateSlug.

(** An instance of [toLowerCase] for the ASCII range, used to run the
    helper on concrete names. *)
Definition asciiLower (s : jsstring) : jsstring :=
  List.map (fun c => if (65 <=? c) && (c <=? 90) then c + 32 else c) s.

End TenantForm.

(** ** The query cache of the data-fetching library

    The bindings of [hooks/use-api] only configure [useQuery] and
    [useMutation]; what the library does with those options is written
    out here: a cache of keyed queries, prefix invalidation, and the
    life cycle of one mutation. *)

Module QueryCore.

(** A query key is an array of values. *)
Definition QueryKey : Type := list jsval.

(** One remote call of the REST client: [api.<endpoint>(args)]. *)
Record RemoteCall : Type := Call { endpoint : string; args : list jsval }.

(** How a remote call settles. *)
Inductive Outcome : Type :=
  | Resolved (data : jsval)
  | Rejected (error : jsval).

Record Query : Type := MkQuery {
  queryKey : QueryKey;
  queryData : jsval;
  isInvalidated : bool
}.

(** [partialMatchKey(key, filter)] at the filters of this code base,
    which are arrays of strings: the filter is a prefix of the key. A
    string never matches an object or [undefined] (their [typeof]
    differs). *)
Fixpoint partialMatchKey (key : QueryKey) (filter : list jsstring)
    {struct filter} : bool :=
  match filter, key with
  | [], _ => true
  | b :: filter', VStr a :: key' => jsstring_eqb a b && partialMatchKey key' filter'
  | _ :: _, _ => false
  end.

(** What the query client has done so far, oldest first. *)
Inductive Event : Type :=
  | Called (c : RemoteCall)
  | Invalidated (filter : list jsstring).

Record QueryClient : Type := MkClient {
  cache : list Query;
  log : list Event
}.

(** An effect on the query client. *)
Definition Effect : Type := QueryClient -> QueryClient.

Definition seq (a b : Effect) : Effect := fun qc => b (a qc).
Notation "a >> b" := (seq a b) (at level 61, left associativity).

Definition invalidate (filter : list jsstring) (q : Query) : Query :=
  if partialMatchKey (queryKey q) filter
  then MkQuery (queryKey q) (queryData q) true
  else q.

(** [queryClient.invalidateQueries({ queryKey: filter })] *)
Definition invalidateQueries (filter : list jsstring) : Effect := fun qc =>
  MkClient (List.map (invalidate filter) (cache qc))
           (log qc ++ [Invalidated filter]).

Definition callRemote (c : RemoteCall) : Effect := fun qc =>
  MkClient (cache qc) (log qc ++ [Called c]).

(** The options object handed to [useMutation]. *)
Record MutationOptions : Type := MkMutation {
  mutationFn : jsval -> RemoteCall;
  onSuccess : option Effect;
  onError : option Effect;
  onSettled : option Effect
}.

Definition run (cb : option Effect) : Effect :=
  match cb with Some f => f | None => fun qc => qc end.

(** [mutation.mutateAsync(input)]: one call of [mutationFn] (mutations
    are not retried by default); when it resolves, [onSuccess] then
    [onSettled] run and the data is returned; when it rejects, [onError]
    then [onSettled] run and the same error is thrown again. *)
Definition mutateAsync (o : MutationOptions) (api : RemoteCall -> Outcome)
    (input : jsval) (qc : QueryClient) : Outcome * QueryClient :=
  let c := mutationFn o input in
  let qc1 := callRemote c qc in
  match api c with
  | Resolved d => (Resolved d, run (onSettled o) (run (onSuccess o) qc1))
  | Rejected e => (Rejected e, run (onSettled o) (run (onError o) qc1))
  end.

(** The options object handed to [useQuery]. *)
Record QueryOptions : Type := MkQueryOptions {
  qKey : QueryKey;
  queryFn : RemoteCall;
  enabled : bool;
  refetchInterval : option Z
}.

(** [after] is [before] with some entries marked stale: the same
    entries in the same order, with their keys and data, and none that
    was stale is fresh again. *)
Definition only_marks_stale (before after : list Query) : Prop :=
  Forall2 (fun q q' => queryKey q' = queryKey q
                       /\ queryData q' = queryData q
                       /\ (isInvalidated q = true -> isInvalidated q' = true))
    before after.

(** The prefixes a callback invalidates, in order. *)
Definition invalidations (cb : option Effect) : list (list jsstring) :=
  omap (fun e => match e with Invalidated f => Some f | Called _ => None end)
       (log (run cb (MkClient [] []))).

End QueryCore.

Import QueryCore.

(** ** hooks/use-api.ts: the query and mutation bindings *)

Module UseApi.

Definition optionsFor (call : jsval -> RemoteCall) (success : option Effect)
    : MutationOptions :=
  MkMutation call success None None.

(** *** Tenants *)


Definition useTenant (id : jsstring) : QueryOptions :=
  MkQueryOptions [VStr (js "tenants"); VStr id]
    (Call "tenants.get" [VStr id]) (str_truthy id) None.

Definition useCreateTenant : MutationOptions :=
  optionsFor (fun data => Call "tenants.create" [data])
    (Some (invalidateQueries [js "tenants"])).

Definition useUpdateTenant (id : jsstring) : MutationOptions :=
  optionsFor (fun data => Call "tenants.update" [VStr id; data])
    (Some (invalidateQueries [js "tenants"] >>
           invalidateQueries [js "tenants"; id])).

Definition useDeleteTenant : MutationOptions :=
  optionsFor (fun id => Call "tenants.delete" [id])
    (Some (invalidateQueries [js "tenants"])).

Definition useDeleteTenantPermanent : MutationOptions :=
  optionsFor (fun id => Call "tenants.deletePermanent" [id])
    (Some (invalidateQueries [js "tenants"])).

(** *** Users *)


Definition useUser (id : jsstring) : QueryOptions :=
  MkQueryOptions [VStr (js "users"); VStr id]
    (Call "users.get" [VStr id]) (str_truthy id) None.


Definition useCreateUser : MutationOptions :=
  optionsFor (fun data => Call "users.create" [data])
    (Some (invalidateQueries [js "users"])).

Definition useUpdateUser (id : jsstring) : MutationOptions :=
  optionsFor (fun data => Call "users.update" [VStr id; data])
    (Some (invalidateQueries [js "users"] >>
           invalidateQueries [js "users"; id])).

Definition useDeleteUser : MutationOptions :=
  optionsFor (fun id => Call "users.delete" [id])
    (Some (invalidateQueries [js "users"])).

Definition useDeleteUserPermanent : MutationOptions :=
  optionsFor (fun id => Call "users.deletePermanent" [id])
    (Some (invalidateQueries [js "users"])).

Definition useChangePassword (id : jsstring) : MutationOptions :=
  optionsFor (fun data => Call "users.changePassword" [VStr id; data]) None.

(** *** Roles *)


(** *** Clients *)


Definition useClient (id : jsstring) (options_enabled : option bool)
    : QueryOptions :=
  MkQueryOptions [VStr (js "clients"); VStr id]
    (Call "clients.get" [VStr id])
    (match options_enabled with Some b => b | None => str_truthy id end)
    None.

Definition useCreateClient : MutationOptions :=
  optionsFor (fun data => Call "clients.create" [data])
    (Some (invalidateQueries [js "clients"] >>
           invalidateQueries [js "stats"])).

Definition useUpdateClient (id : jsstring) : MutationOptions :=
  optionsFor (fun data => Call "clients.update" [VStr id; data])
    (Some (invalidateQueries [js "clients"] >>
           invalidateQueries [js "clients"; id])).

Definition useDeleteClient : MutationOptions :=
  optionsFor (fun id => Call "clients.delete" [id])
    (Some (invalidateQueries [js "clients"] >>
           invalidateQueries [js "stats"])).

Definition useClientAccounts (id : jsstring) : QueryOptions :=
  MkQueryOptions [VStr (js "clients"); VStr id; VStr (js "accounts")]
    (Call "clients.accounts" [VStr id]) (str_truthy id) None.

Definition useClientDocuments (id : jsstring) : QueryOptions :=
  MkQueryOptions [VStr (js "clients"); VStr id; VStr (js "documents")]
    (Call "clients.documents" [VStr id]) (str_truthy id) None.

(** *** Modules *)


Definition useEnableModule : MutationOptions :=
  optionsFor
    (fun v => Call "modules.enable" [get v "moduleId"; get v "tenantId"])
    (Some (invalidateQueries [js "modules"])).

Definition useDisableModule : MutationOptions :=
  optionsFor
    (fun v => Call "modules.disable" [get v "moduleId"; get v "tenantId"])
    (Some (invalidateQueries [js "modules"])).

(** *** Audit logs and statistics *)





End UseApi.

(** ** Product bindings *)

Module ProductApi.

(** Modelled from the spec: the product mutation bindings
    [useCreateProduct], [useUpdateProduct] and [useDeleteProduct], which
    the product dialogs import from [hooks/use-api] and which are not
    part of the sources at hand. After a successful product creation the
    "products" collection key and the "stats" key are invalidated (and so
    for deletion); after a successful product update only the "products"
    collection key and the specific product item key are. *)
Definition useCreateProduct : MutationOptions :=
  UseApi.optionsFor (fun data => Call "products.create" [data])
    (Some (invalidateQueries [js "products"] >>
           invalidateQueries [js "stats"])).

(** Modelled from the spec: see [useCreateProduct]. *)
Definition useUpdateProduct (id : jsstring) : MutationOptions :=
  UseApi.optionsFor (fun data => Call "products.update" [VStr id; data])
    (Some (invalidateQueries [js "products"] >>
           invalidateQueries [js "products"; id])).

(** Modelled from the spec: see [useCreateProduct]. *)
Definition useDeleteProduct : MutationOptions :=
  UseApi.optionsFor (fun id => Call "products.delete" [id])
    (Some (invalidateQueries [js "products"] >>
           invalidateQueries [js "stats"])).

End ProductApi.

(** ** The bindings by resource and operation *)

Module Bindings.

Inductive Operation : Type :=
  | Create | Update | Delete | DeletePermanent
  | ChangePassword | Enable | Disable.

Record MutationBinding : Type := MkBinding {
  collection : string;
  operation : Operation;
  options : MutationOptions
}.

(** The mutation bindings of [hooks/use-api], for a record [id] where the
    hook takes one. *)
Definition api_bindings (id : jsstring) : list MutationBinding :=
  [ MkBinding "tenants" Create UseApi.useCreateTenant;
    MkBinding "tenants" Update (UseApi.useUpdateTenant id);
    MkBinding "tenants" Delete UseApi.useDeleteTenant;
    MkBinding "tenants" DeletePermanent UseApi.useDeleteTenantPermanent;
    MkBinding "users" Create UseApi.useCreateUser;
    MkBinding "users" Update (UseApi.useUpdateUser id);
    MkBinding "users" Delete UseApi.useDeleteUser;
    MkBinding "users" DeletePermanent UseApi.useDeleteUserPermanent;
    MkBinding "users" ChangePassword (UseApi.useChangePassword id);
    MkBinding "clients" Create UseApi.useCreateClient;
    MkBinding "clients" Update (UseApi.useUpdateClient id);
    MkBinding "clients" Delete UseApi.useDeleteClient;
    MkBinding "modules" Enable UseApi.useEnableModule;
    MkBinding "modules" Disable UseApi.useDisableModule ].

Definition product_bindings (id : jsstring) : list MutationBinding :=
  [ MkBinding "products" Create ProductApi.useCreateProduct;
    MkBinding "products" Update (ProductApi.useUpdateProduct id);
    MkBinding "products" Delete ProductApi.useDeleteProduct ].

Definition mutation_bindings (id : jsstring) : list MutationBinding :=
  api_bindings id ++ product_bindings id.

(** The prefixes a binding invalidates when its mutation succeeds. *)
Definition invalidated (b : MutationBinding) : list (list jsstring) :=
  invalidations (onSuccess (options b)).

(** The resources whose creation and deletion change the dashboard
    counts. *)
Definition counted (c : string) : bool :=
  String.eqb c "clients" || String.eqb c "products".

Definition creates_or_deletes (op : Operation) : bool :=
  match op with Create | Delete => true | _ => false end.

End Bindings.

(** ** app/(dashboard)/tenants/[id]/branding/page.tsx *)

Module TenantBrandingPage.

(** The page's own [useQuery] for the tenant named by the route. *)
Definition tenantQuery (tenantId : jsstring) : QueryOptions :=
  MkQueryOptions [VStr (js "tenant"); VStr tenantId]
    (Call "tenants.get" [VStr tenantId]) (str_truthy tenantId) None.

End TenantBrandingPage.

(** The queries that fetch one item of a collection by its id, each with
    the name of its collection. *)
Definition item_queries (id : jsstring) : list (string * QueryOptions) :=
  [ ("tenants", UseApi.useTenant id);
    ("users", UseApi.useUser id);
    ("clients", UseApi.useClient id None);
    ("tenants", TenantBrandingPage.tenantQuery id) ].

(** ** components/tenants/delete-tenant-dialog.tsx *)

Module DeleteTenantDialog.

Record Tenant : Type := MkTenant {
  id : jsstring;
  name : jsstring;
  slug : jsstring
}.

Inductive Mode : Type := deactivate | permanent.

(** The component's [useState] cells. *)
Record State : Type := MkState {
  isDeleting : bool;
  confirmText : jsstring
}.

Definition initial : State := MkState false [].

(** The state while the remote call of [handleDelete] is pending:
    [setIsDeleting(true)] has run, the [finally] block has not. *)
Definition deleting (st : State) : State :=
  MkState true (confirmText st).

(** The input's [onChange]. *)
Definition setConfirmText (text : jsstring) (st : State) : State :=
  MkState (isDeleting st) text.

(** The [disabled] property of the dialog's action button. *)
Definition actionDisabled (mode : Mode) (tenant : Tenant) (st : State) : bool :=
  match mode with
  | permanent =>
      isDeleting st || negb (jsstring_eqb (confirmText st) (slug tenant))
  | deactivate => isDeleting st
  end.

Definition actionEnabled (mode : Mode) (tenant : Tenant) (st : State) : bool :=
  negb (actionDisabled mode tenant st).

(** What one run of [handleDelete] leaves behind: the component state,
    the query client, and whether [onOpenChange(false)] was called. *)
Record Run : Type := MkRun {
  state : State;
  client : QueryClient;
  closed : bool
}.

Definition handleDelete (mode : Mode) (tenant : option Tenant)
    (api : RemoteCall -> Outcome) (st : State) (qc : QueryClient) : Run :=
  match tenant with
  | None => MkRun st qc false
  | Some t =>
      if match mode with
         | permanent => negb (jsstring_eqb (confirmText st) (slug t))
         | deactivate => false
         end
      then MkRun st qc false
      else
        let binding := match mode with
                       | permanent => UseApi.useDeleteTenantPermanent
                       | deactivate => UseApi.useDeleteTenant
                       end in
        match mutateAsync binding api (VStr (id t)) qc with
        | (Resolved _, qc') => MkRun (MkState false []) qc' true
        | (Rejected _, qc') => MkRun (MkState false (confirmText st)) qc' false
        end
  end.

(** [handleOpenChange]: the confirmation text is emptied when the dialog
    closes; the second component is what [onOpenChange] is called with. *)
Definition handleOpenChange (open : bool) (st : State) : State * bool :=
  ((if open then st else setConfirmText [] st), open).

End DeleteTenantDialog.

(** ** components/clients/client-form.tsx *)

Module ClientForm.

Inductive ClientType : Type := individual | entity | trust.
Inductive RiskProfile : Type :=
  conservative | moderate | balanced | growth | aggressive.
Inductive KycStatus : Type :=
  pending | in_progress | approved | rejected | expired.

Definition clientType_name (t : ClientType) : string :=
  match t with
  | individual => "individual" | entity => "entity" | trust => "trust"
  end.

Definition riskProfile_name (r : RiskProfile) : string :=
  match r with
  | conservative => "conservative" | moderate => "moderate"
  | balanced => "balanced" | growth => "growth" | aggressive => "aggressive"
  end.

Definition kycStatus_name (k : KycStatus) : string :=
  match k with
  | pending => "pending" | in_progress => "in_progress"
  | approved => "approved" | rejected => "rejected" | expired => "expired"
  end.

#[global] Instance ClientType_eq_dec : EqDecision ClientType.
Proof. solve_decision. Defined.

(** [ClientFormData], the type inferred from [clientSchema]: an optional
    property is [None] when it is [undefined]. *)
Record ClientFormData : Type := MkClientFormData {
  client_type : ClientType;
  first_name : option jsstring;
  last_name : option jsstring;
  entity_name : option jsstring;
  email : option jsstring;
  phone : option jsstring;
  risk_profile : option RiskProfile;
  kyc_status : option KycStatus;
  extra_data : option jsstring
}.

Inductive Mode : Type := create | edit.

(** A validation issue: the field path it is attached to and its text. *)
Record Issue : Type := MkIssue { path : list string; message : string }.

Definition refineMessage : string :=
  "Individual clients require first and last name; entities require entity name".

(** The predicate handed to [.refine]. *)
Definition refinement (data : ClientFormData) : bool :=
  match client_type data with
  | individual => opt_truthy (first_name data) && opt_truthy (last_name data)
  | _ => opt_truthy (entity_name data)
  end.

(** The form state of a new form: the [defaultValues] of [useForm] when
    the caller passes none. *)
Definition defaultValues (mode : Mode) : ClientFormData :=
  MkClientFormData individual (Some []) (Some []) (Some []) (Some []) (Some [])
    None (match mode with create => Some pending | edit => None end) (Some []).

(** The body of the effect that depends on [clientType]. *)
Definition resetNameFields (mode : Mode) (st : ClientFormData) : ClientFormData :=
  match mode with
  | create =>
      match client_type st with
      | individual =>
          MkClientFormData (client_type st) (first_name st) (last_name st)
            (Some []) (email st) (phone st) (risk_profile st) (kyc_status st)
            (extra_data st)
      | _ =>
          MkClientFormData (client_type st) (Some []) (Some [])
            (entity_name st) (email st) (phone st) (risk_profile st)
            (kyc_status st) (extra_data st)
      end
  | edit => st
  end.

Definition setClientType (t : ClientType) (st : ClientFormData) : ClientFormData :=
  MkClientFormData t (first_name st) (last_name st) (entity_name st)
    (email st) (phone st) (risk_profile st) (kyc_status st) (extra_data st).

(** The user picks [t] in the select: the field changes, and the effect
    runs after the render if its dependency [clientType] has changed. *)
Definition changeClientType (mode : Mode) (t : ClientType)
    (st : ClientFormData) : ClientFormData :=
  if decide (t = client_type st) then st
  else resetNameFields mode (setClientType t st).

(** The user types into the entity name input. *)
Definition typeEntityName (s : jsstring) (st : ClientFormData) : ClientFormData :=
  MkClientFormData (client_type st) (first_name st) (last_name st) (Some s)
    (email st) (phone st) (risk_profile st) (kyc_status st) (extra_data st).

(** The user types into the first name, last name and other inputs. *)
Definition typeFirstName (s : jsstring) (st : ClientFormData) : ClientFormData :=
  MkClientFormData (client_type st) (Some s) (last_name st) (entity_name st)
    (email st) (phone st) (risk_profile st) (kyc_status st) (extra_data st).

Definition typeLastName (s : jsstring) (st : ClientFormData) : ClientFormData :=
  MkClientFormData (client_type st) (first_name st) (Some s) (entity_name st)
    (email st) (phone st) (risk_profile st) (kyc_status st) (extra_data st).

Definition typeEmail (s : jsstring) (st : ClientFormData) : ClientFormData :=
  MkClientFormData (client_type st) (first_name st) (last_name st)
    (entity_name st) (Some s) (phone st) (risk_profile st) (kyc_status st)
    (extra_data st).

Definition typePhone (s : jsstring) (st : ClientFormData) : ClientFormData :=
  MkClientFormData (client_type st) (first_name st) (last_name st)
    (entity_name st) (email st) (Some s) (risk_profile st) (kyc_status st)
    (extra_data st).

(** The risk profile select: [field.onChange(e.target.value || undefined)]. *)
Definition pickRiskProfile (r : option RiskProfile) (st : ClientFormData)
    : ClientFormData :=
  MkClientFormData (client_type st) (first_name st) (last_name st)
    (entity_name st) (email st) (phone st) r (kyc_status st) (extra_data st).

Definition pickKycStatus (k : KycStatus) (st : ClientFormData) : ClientFormData :=
  MkClientFormData (client_type st) (first_name st) (last_name st)
    (entity_name st) (email st) (phone st) (risk_profile st) (Some k)
    (extra_data st).

Definition typeExtraData (s : jsstring) (st : ClientFormData) : ClientFormData :=
  MkClientFormData (client_type st) (first_name st) (last_name st)
    (entity_name st) (email st) (phone st) (risk_profile st) (kyc_status st)
    (Some s).

(** One user event on the rendered create form. The name inputs are
    rendered by [clientType === "individual" ? ... : ...]: the first and
    last name inputs exist only for an individual, the entity name input
    only otherwise; the other inputs are always there. *)
Inductive event : ClientFormData -> ClientFormData -> Prop :=
  | pick_type t st :
      event st (changeClientType create t st)
  | type_first s st :
      client_type st = individual -> event st (typeFirstName s st)
  | type_last s st :
      client_type st = individual -> event st (typeLastName s st)
  | type_entity s st :
      client_type st <> individual -> event st (typeEntityName s st)
  | type_email s st : event st (typeEmail s st)
  | type_phone s st : event st (typePhone s st)
  | pick_risk r st : event st (pickRiskProfile r st)
  | pick_kyc k st : event st (pickKycStatus k st)
  | type_extra s st : event st (typeExtraData s st).

(** The states a new create form can be brought to. *)
Inductive reachable : ClientFormData -> Prop :=
  | reach_initial : reachable (resetNameFields create (defaultValues create))
  | reach_event st st' : reachable st -> event st st' -> reachable st'.

(** The name group that is not rendered holds empty strings. *)
Definition hidden_group_empty (st : ClientFormData) : Prop :=
  match client_type st with
  | individual => entity_name st = Some []
  | _ => first_name st = Some [] /\ last_name st = Some []
  end.

(** The keys [handleSubmit] may assign. *)
Definition payload_keys : list string :=
  [ "client_type"; "first_name"; "last_name"; "entity_name"; "email";
    "phone"; "risk_profile"; "kyc_status"; "extra_data" ].

(** [if (v?.trim()) submitData[k] = v.trim()] *)
Definition setTrimmed (k : string) (v : option jsstring)
    (submitData : gmap string jsval) : gmap string jsval :=
  match v with
  | Some s => if str_truthy (trim s) then <[k := VStr (trim s)]> submitData
              else submitData
  | None => submitData
  end.

(** What [setTrimmed] stores for a field: its trimmed value, or nothing
    when the field is [undefined] or blank. *)
Definition trimmedValue (v : option jsstring) : option jsval :=
  match v with
  | Some s => if str_truthy (trim s) then Some (VStr (trim s)) else None
  | None => None
  end.

(** The optional free-text fields of the form, by payload key. *)
Definition string_fields (data : ClientFormData)
    : list (string * option jsstring) :=
  [ ("first_name", first_name data); ("last_name", last_name data);
    ("entity_name", entity_name data); ("email", email data);
    ("phone", phone data) ].

(** A name that is missing or empty. *)
Definition blank (v : option jsstring) : Prop := v = None \/ v = Some [].

(** [if (v) submitData[k] = v] for an enumerated value. *)
Definition setEnum {A} (name : A -> string) (k : string) (v : option A)
    (submitData : gmap string jsval) : gmap string jsval :=
  match v with
  | Some a => <[k := VStr (js (name a))]> submitData
  | None => submitData
  end.

Section Schema.

(** zod's e-mail format check and the runtime's [JSON.parse] ([None]
    when it throws) are not part of the sources. *)
Variable is_email : jsstring -> bool.
Variable JSON_parse : jsstring -> option jsval.

(** [z.string().email().optional().or(z.literal(""))] *)
Definition emailIssues (v : option jsstring) : list Issue :=
  match v with
  | None => []
  | Some s =>
      if is_email s then []
      else if jsstring_eqb s [] then []
      else [MkIssue ["email"] "Invalid email"]
  end.

(** [clientSchema]: the object's own checks, then the refinement. *)
Definition clientSchema (data : ClientFormData) : list Issue :=
  emailIssues (email data)
  ++ (if refinement data then []
      else [MkIssue ["client_type"] refineMessage]).

(** [handleSubmit]: the payload handed to [onSubmit]. *)
Definition handleSubmit (data : ClientFormData) : gmap string jsval :=
  let submitData : gmap string jsval :=
    {[ "client_type" := VStr (js (clientType_name (client_type data))) ]} in
  let submitData := setTrimmed "first_name" (first_name data) submitData in
  let submitData := setTrimmed "last_name" (last_name data) submitData in
  let submitData := setTrimmed "entity_name" (entity_name data) submitData in
  let submitData := setTrimmed "email" (email data) submitData in
  let submitData := setTrimmed "phone" (phone data) submitData in
  let submitData :=
    setEnum riskProfile_name "risk_profile" (risk_profile data) submitData in
  let submitData :=
    setEnum kycStatus_name "kyc_status" (kyc_status data) submitData in
  match extra_data data with
  | Some s =>
      if str_truthy (trim s) then
        match JSON_parse s with
        | Some v => <["extra_data" := v]> submitData
        | None => submitData
        end
      else submitData
  | None => submitData
  end.

(** [form.handleSubmit(handleSubmit)]: the resolver runs the schema;
    the handler is only called on valid data. *)
Definition submit (data : ClientFormData)
    : list Issue + gmap string jsval :=
  match clientSchema data with
  | [] => inr (handleSubmit data)
  | issues => inl issues
  end.

End Schema.

End ClientForm.

(** ** components/clients/client-dialog.tsx *)

Module ClientDialog.

Inductive Variant : Type := default | destructive.

Record Toast : Type := MkToast {
  variant : Variant;
  title : jsstring;
  description : jsval
}.

Definition fallbackMessage : jsstring :=
  js "Failed to save client. Please try again.".

Section Extraction.

(** The runtime's [JSON.stringify]. *)
Variable JSON_stringify : jsval -> jsval.

(** The text shown for [detail]: itself when it is a string, its JSON
    rendering otherwise. *)
Definition detailText (d : jsval) : jsval :=
  match d with VStr s => VStr s | _ => JSON_stringify d end.

(** The message computed in the [catch] block of [handleSubmit]. *)
Definition errorMessage (error : jsval) : jsval :=
  if instanceof_Error error then get error "message"
  else
    match error with
    | VStr s => VStr s
    | _ =>
        if truthy (get error "message") then get error "message"
        else if truthy (get error "detail") then
          detailText (get error "detail")
        else VStr fallbackMessage
    end.

(** What one run of [handleSubmit] leaves behind: the toast shown, the
    query client, and whether [onOpenChange(false)] was called. *)
Record Run : Type := MkRun {
  toast : Toast;
  client : QueryClient;
  closed : bool
}.

(** [handleSubmit] of the dialog; [editing] is the id of the client
    being edited, if any. *)
Definition handleSubmit (editing : option jsstring)
    (api : RemoteCall -> Outcome) (data : jsval) (qc : QueryClient) : Run :=
  let '(binding, done_title, done_text) :=
    match editing with
    | Some id =>
        (UseApi.useUpdateClient id, js "Client updated",
         js "Client information has been updated successfully.")
    | None =>
        (UseApi.useCreateClient, js "Client created",
         js "New client has been created successfully.")
    end in
  match mutateAsync binding api data qc with
  | (Resolved _, qc') =>
      MkRun (MkToast default done_title (VStr done_text)) qc' true
  | (Rejected error, qc') =>
      MkRun (MkToast destructive (js "Error") (errorMessage error)) qc' false
  end.

End Extraction.

End ClientDialog.

(** ** components/users/user-form.tsx *)

Module UserForm.

Inductive Mode : Type := create | edit.

(** [UserFormValues]: an optional property is [None] when it is
    [undefined]. *)
Record UserFormValues : Type := MkUserFormValues {
  email : jsstring;
  first_name : jsstring;
  last_name : jsstring;
  password : option jsstring;
  is_active : bool;
  tenant_id : option jsstring;
  role_ids : option (list jsstring)
}.

Record Issue : Type := MkIssue { path : list string; message : string }.

(** [z.string().min(lo, too_short).max(hi, too_long)] on a string: both
    checks run and each adds its issue. *)
Definition lengthIssues (field : string) (lo hi : nat)
    (too_short too_long : string) (s : jsstring) : list Issue :=
  (if Nat.ltb (length s) lo then [MkIssue [field] too_short] else [])
  ++ (if Nat.ltb hi (length s) then [MkIssue [field] too_long] else []).

Definition tooShort : Issue :=
  MkIssue ["password"] "Password must be at least 8 characters".

Definition passwordChecks (s : jsstring) : list Issue :=
  lengthIssues "password" 8 100
    "Password must be at least 8 characters"
    "Password must be less than 100 characters" s.

(** The [password] member of [createUserSchema]: a required string. *)
Definition createPassword (v : option jsstring) : list Issue :=
  match v with
  | None => [MkIssue ["password"] "Required"]
  | Some s => passwordChecks s
  end.

(** The [password] member of [editUserSchema]:
    [z.string().min(8).max(100).optional().or(z.literal(""))]. The union
    accepts what either member accepts and otherwise reports the issues
    of the first member. *)
Definition editPassword (v : option jsstring) : list Issue :=
  match v with
  | None => []
  | Some s =>
      match passwordChecks s with
      | [] => []
      | issues => if jsstring_eqb s [] then [] else issues
      end
  end.

Definition spreadOpt (k : string) (v : option jsval)
    (o : gmap string jsval) : gmap string jsval :=
  match v with Some x => <[k := x]> o | None => o end.

Definition strings (xs : list jsstring) : jsval := VArr (List.map VStr xs).

(** [{ ...values }]: the own properties of the validated values. *)
Definition spread (values : UserFormValues) : gmap string jsval :=
  spreadOpt "role_ids" (strings <$> role_ids values)
    (spreadOpt "tenant_id" (VStr <$> tenant_id values)
       (<["is_active" := VBool (is_active values)]>
          (spreadOpt "password" (VStr <$> password values)
             (<["last_name" := VStr (last_name values)]>
                (<["first_name" := VStr (first_name values)]>
                   {[ "email" := VStr (email values) ]}))))).

(** [x || undefined] on an optional string. *)
Definition orUndefined (v : option jsstring) : jsval :=
  match v with
  | Some s => if str_truthy s then VStr s else VUndefined
  | None => VUndefined
  end.

Section Schema.

(** zod's e-mail format check is not part of the sources. *)
Variable is_email : jsstring -> bool.

(** [userFormSchema] without its [password] member, which both
    extensions replace. *)
Definition baseIssues (v : UserFormValues) : list Issue :=
  (if is_email (email v) then [] else [MkIssue ["email"] "Invalid email address"])
  ++ lengthIssues "first_name" 1 100
       "First name is required"
       "First name must be less than 100 characters" (first_name v)
  ++ lengthIssues "last_name" 1 100
       "Last name is required"
       "Last name must be less than 100 characters" (last_name v).

Definition createUserSchema (v : UserFormValues) : list Issue :=
  baseIssues v ++ createPassword (password v).

Definition editUserSchema (v : UserFormValues) : list Issue :=
  baseIssues v ++ editPassword (password v).

(** [const schema = mode === "create" ? createUserSchema : editUserSchema] *)
Definition schema (mode : Mode) : UserFormValues -> list Issue :=
  match mode with
  | create => createUserSchema
  | edit => editUserSchema
  end.

(** [handleSubmit]: the object handed to [onSubmit]. *)
Definition handleSubmit (showTenantSelector : bool)
    (currentTenantId : option jsstring) (values : UserFormValues)
    : gmap string jsval :=
  <["tenant_id" := of_opt (if showTenantSelector then tenant_id values
                           else currentTenantId)]>
    (<["password" := orUndefined (password values)]> (spread values)).

(** [form.handleSubmit(handleSubmit)] *)
Definition submit (mode : Mode) (showTenantSelector : bool)
    (currentTenantId : option jsstring) (values : UserFormValues)
    : list Issue + gmap string jsval :=
  match schema mode values with
  | [] => inr (handleSubmit showTenantSelector currentTenantId values)
  | issues => inl issues
  end.

End Schema.

(** The issues attached to one field path. *)
Definition issuesAt (field : string) (issues : list Issue) : list Issue :=
  List.filter (fun i => bool_decide (path i = [field])) issues.

End UserForm.

(** ** components/tenants/tenant-form.tsx: the [TenantForm] component *)

Module TenantFormComponent.

Import UserForm.

Inductive FormMode : Type := creating | editing.

(** [TenantFormValues]: an optional property is [None] when it is
    [undefined]. *)
Record TenantFormValues : Type := MkTenantFormValues {
  name : jsstring;
  slug : jsstring;
  contact_email : option jsstring;
  contact_phone : option jsstring;
  active : bool
}.

(** [/^[a-z0-9-]+$/.test(s)] *)
Definition slugPattern (s : jsstring) : bool :=
  str_truthy s && forallb TenantForm.slug_char s.

Definition badSlug : Issue :=
  MkIssue ["slug"] "Slug can only contain lowercase letters, numbers, and hyphens".

(** The [name] member of [tenantFormSchema]. *)
Definition nameIssues (s : jsstring) : list Issue :=
  lengthIssues "name" 2 100
    "Name must be at least 2 characters"
    "Name must be less than 100 characters" s.

(** The [slug] member: the two length checks and the pattern all run. *)
Definition slugIssues (s : jsstring) : list Issue :=
  lengthIssues "slug" 2 50
    "Slug must be at least 2 characters"
    "Slug must be less than 50 characters" s
  ++ (if slugPattern s then [] else [badSlug]).

(** The [contact_phone] member:
    [z.string().max(20).optional().or(z.literal(""))]. *)
Definition phoneIssues (v : option jsstring) : list Issue :=
  match v with
  | None => []
  | Some s =>
      match (if Nat.ltb 20 (length s)
             then [MkIssue ["contact_phone"] "Phone number too long"]
             else []) with
      | [] => []
      | issues => if jsstring_eqb s [] then [] else issues
      end
  end.

Definition setSlug (s : jsstring) (st : TenantFormValues) : TenantFormValues :=
  MkTenantFormValues (name st) s (contact_email st) (contact_phone st) (active st).

Definition setName (s : jsstring) (st : TenantFormValues) : TenantFormValues :=
  MkTenantFormValues s (slug st) (contact_email st) (contact_phone st) (active st).

(** [s.slice(0, -1)] *)
Definition dropLast (s : jsstring) : jsstring := removelast s.

Section Component.

Variable toLowerCase : jsstring -> jsstring.
Variable is_email : jsstring -> bool.

(** The [contact_email] member:
    [z.string().email().optional().or(z.literal(""))]. *)
Definition contactEmailIssues (v : option jsstring) : list Issue :=
  match v with
  | None => []
  | Some s =>
      if is_email s then []
      else if jsstring_eqb s [] then []
      else [MkIssue ["contact_email"] "Invalid email address"]
  end.

Definition tenantFormSchema (v : TenantFormValues) : list Issue :=
  nameIssues (name v) ++ slugIssues (slug v)
  ++ contactEmailIssues (contact_email v) ++ phoneIssues (contact_phone v).

(** The body of the effect that depends on [watchName]: in create mode
    and with a non-empty name, the slug follows the name unless the
    user has edited it by hand. *)
Definition autoSlug (mode : FormMode) (st : TenantFormValues) : TenantFormValues :=
  match mode with
  | creating =>
      if str_truthy (name st) then
        if negb (str_truthy (slug st))
           || jsstring_eqb (slug st)
                (TenantForm.generateSlug toLowerCase (dropLast (name st)))
        then setSlug (TenantForm.generateSlug toLowerCase (name st)) st
        else st
      else st
  | editing => st
  end.

(** The slug is empty or is the one generated from the name. *)
Definition slug_follows_name (st : TenantFormValues) : Prop :=
  slug st = [] \/ slug st = TenantForm.generateSlug toLowerCase (name st).

(** The user changes the name input: the field changes, and the effect
    runs after the render if its dependency [watchName] has changed. *)
Definition typeName (mode : FormMode) (s : jsstring) (st : TenantFormValues)
    : TenantFormValues :=
  if decide (s = name st) then st else autoSlug mode (setName s st).

(** The user types one character at the end of the name. *)
Definition appendToName (mode : FormMode) (st : TenantFormValues) (c : N)
    : TenantFormValues :=
  typeName mode (name st ++ [c]) st.

(** [handleSubmit]: the object handed to [onSubmit]. *)
Definition handleSubmit (values : TenantFormValues) : gmap string jsval :=
  <["contact_phone" := orUndefined (contact_phone values)]>
    (<["contact_email" := orUndefined (contact_email values)]>
       (<["is_active" := VBool (active values)]>
          (<["slug" := VStr (slug values)]>
             {[ "name" := VStr (name values) ]}))).

End Component.

(** A new create form: the [defaultValues] of [useForm] when the caller
    passes none. *)
Definition emptyForm : TenantFormValues :=
  MkTenantFormValues [] [] (Some []) (Some []) true.

End TenantFormComponent.

(** ** components/tenants/tenant-dialog.tsx *)

Module TenantDialog.

(** A plain object with the given own properties. *)
Definition object (props : gmap string jsval) : jsval :=
  VObj false (map_to_list props).

(** [const { slug, ...updateValues } = values] *)
Definition withoutSlug (values : gmap string jsval) : gmap string jsval :=
  delete "slug" values.

Record Run : Type := MkRun {
  isSubmitting : bool;
  client : QueryClient;
  closed : bool
}.

(** [handleSubmit]; [tenant] is the id of the tenant being edited, if
    any. *)
Definition handleSubmit (tenant : option jsstring)
    (api : RemoteCall -> Outcome) (values : gmap string jsval)
    (qc : QueryClient) : Run :=
  let '(binding, data) :=
    match tenant with
    | None => (UseApi.useCreateTenant, object values)
    | Some id => (UseApi.useUpdateTenant id, object (withoutSlug values))
    end in
  match mutateAsync binding api data qc with
  | (Resolved _, qc') => MkRun false qc' true
  | (Rejected _, qc') => MkRun false qc' false
  end.

End TenantDialog.

(** ** components/clients/delete-client-dialog.tsx *)

Module DeleteClientDialog.

Record Client : Type := MkDialogClient {
  id : jsstring;
  display_name : jsstring;
  email : option jsstring
}.

Definition placeholderName : jsstring := js "this client".

(** [client?.display_name || "this client"] *)
Definition displayName (client : option Client) : jsstring :=
  match client with
  | Some c => if str_truthy (display_name c) then display_name c
              else placeholderName
  | None => placeholderName
  end.

Definition isConfirmed (client : option Client) (confirmText : jsstring) : bool :=
  jsstring_eqb confirmText (displayName client).

(** The [disabled] property of the action button. *)
Definition actionDisabled (client : option Client) (confirmText : jsstring)
    (isPending : bool) : bool :=
  negb (isConfirmed client confirmText) || isPending.

Definition fallbackMessage : jsstring :=
  js "Failed to delete client. Please try again.".

(** [error.message || fallback] in the [catch] block; reading a property
    of [null] or [undefined] throws, and then no toast is shown. *)
Definition failureText (error : jsval) : option jsval :=
  match error with
  | VUndefined | VNull => None
  | _ => Some (if truthy (get error "message") then get error "message"
               else VStr fallbackMessage)
  end.

(** The description of the success toast, a template literal. *)
Definition deletedText (c : Client) : jsstring :=
  (if str_truthy (display_name c) then display_name c else js "Client")
  ++ js " has been deleted successfully.".

(** What one run of [handleDelete] leaves behind: the toast shown (if
    any), the confirmation text, the query client, and whether
    [onOpenChange(false)] was called. *)
Record Run : Type := MkRun {
  toast : option ClientDialog.Toast;
  confirmText : jsstring;
  client : QueryClient;
  closed : bool
}.

Definition handleDelete (c : option Client) (api : RemoteCall -> Outcome)
    (text : jsstring) (qc : QueryClient) : Run :=
  match c with
  | None => MkRun None text qc false
  | Some c =>
      match mutateAsync UseApi.useDeleteClient api (VStr (id c)) qc with
      | (Resolved _, qc') =>
          MkRun (Some (ClientDialog.MkToast ClientDialog.default
                         (js "Client deleted") (VStr (deletedText c))))
                [] qc' true
      | (Rejected error, qc') =>
          MkRun (ClientDialog.MkToast ClientDialog.destructive (js "Error")
                   <$> failureText error)
                text qc' false
      end
  end.

(** [handleOpenChange] *)
Definition handleOpenChange (open : bool) (text : jsstring) : jsstring * bool :=
  ((if open then text else []), open).

End DeleteClientDialog.

(** ** components/products/product-form.tsx *)

Module ProductForm.

Import UserForm.

Inductive RiskLevel : Type :=
  conservative | moderate | balanced | growth | aggressive.
Inductive Currency : Type := USD | HKD | CNY | EUR | GBP | SGD | JPY.

Definition riskLevel_name (r : RiskLevel) : string :=
  match r with
  | conservative => "conservative" | moderate => "moderate"
  | balanced => "balanced" | growth => "growth" | aggressive => "aggressive"
  end.

Definition currency_name (c : Currency) : string :=
  match c with
  | USD => "USD" | HKD => "HKD" | CNY => "CNY" | EUR => "EUR"
  | GBP => "GBP" | SGD => "SGD" | JPY => "JPY"
  end.

(** [ProductFormData], the validated form data; [min_investment] is the
    number the schema produced, handed on as it is. *)
Record ProductFormData : Type := MkProductFormData {
  module_id : jsstring;
  code : jsstring;
  name : jsstring;
  name_zh : option jsstring;
  description : option jsstring;
  description_zh : option jsstring;
  category : jsstring;
  category_id : option jsstring;
  risk_level : RiskLevel;
  min_investment : jsval;
  currency : Currency;
  expected_return : option jsstring
}.

(** The [name] member of [productSchema]:
    [z.string().min(1, "Name is required").max(255)]. *)
Definition nameIssues (s : jsstring) : list Issue :=
  lengthIssues "name" 1 255
    "Name is required" "String must contain at most 255 character(s)" s.

(** The [category] member:
    [z.string().min(1, "Category is required").max(100)]. *)
Definition categoryIssues (s : jsstring) : list Issue :=
  lengthIssues "category" 1 100
    "Category is required" "String must contain at most 100 character(s)" s.

(** [if (v) submitData[k] = v] for an optional string. *)
Definition setIfTruthy (k : string) (v : option jsstring)
    (submitData : gmap string jsval) : gmap string jsval :=
  match v with
  | Some s => if str_truthy s then <[k := VStr s]> submitData else submitData
  | None => submitData
  end.

(** [handleSubmit]: the payload handed to [onSubmit]. *)
Definition handleSubmit (data : ProductFormData) : gmap string jsval :=
  let submitData : gmap string jsval :=
    <["currency" := VStr (js (currency_name (currency data)))]>
      (<["min_investment" := min_investment data]>
         (<["risk_level" := VStr (js (riskLevel_name (risk_level data)))]>
            (<["category" := VStr (trim (category data))]>
               (<["name" := VStr (trim (name data))]>
                  (<["code" := VStr (code data)]>
                     {[ "module_id" := VStr (module_id data) ]}))))) in
  let submitData := ClientForm.setTrimmed "name_zh" (name_zh data) submitData in
  let submitData :=
    ClientForm.setTrimmed "description" (description data) submitData in
  let submitData :=
    ClientForm.setTrimmed "description_zh" (description_zh data) submitData in
  let submitData := setIfTruthy "category_id" (category_id data) submitData in
  ClientForm.setTrimmed "expected_return" (expected_return data) submitData.

Definition required_keys : list string :=
  [ "module_id"; "code"; "name"; "category"; "risk_level";
    "min_investment"; "currency" ].

Definition optional_keys : list string :=
  [ "name_zh"; "description"; "description_zh"; "category_id";
    "expected_return" ].

End ProductForm.

(** ** components/products/product-dialog.tsx and delete-product-dialog.tsx *)

Module ProductDialog.

Definition fallbackMessage : jsstring :=
  js "Failed to save product. Please try again.".

Section Dialog.

Variable JSON_stringify : jsval -> jsval.

(** The product mutation hooks are not part of the sources: the dialog
    is taken over whatever options they return. *)
Variable createMutation updateMutation : MutationOptions.

(** The message computed in the [catch] block of [handleSubmit]. *)
Definition errorMessage (error : jsval) : jsval :=
  if instanceof_Error error then get error "message"
  else
    match error with
    | VStr s => VStr s
    | _ =>
        if truthy (get error "message") then get error "message"
        else if truthy (get error "detail") then
          ClientDialog.detailText JSON_stringify (get error "detail")
        else VStr fallbackMessage
    end.

(** [handleSubmit]; [isEdit] is [!!product]. *)
Definition handleSubmit (isEdit : bool) (api : RemoteCall -> Outcome)
    (data : jsval) (qc : QueryClient) : ClientDialog.Run :=
  let '(binding, done_title, done_text) :=
    if isEdit then
      (updateMutation, js "Product updated",
       js "Product has been updated successfully.")
    else
      (createMutation, js "Product created",
       js "New product has been created successfully.") in
  match mutateAsync binding api data qc with
  | (Resolved _, qc') =>
      ClientDialog.MkRun
        (ClientDialog.MkToast ClientDialog.default done_title (VStr done_text))
        qc' true
  | (Rejected error, qc') =>
      ClientDialog.MkRun
        (ClientDialog.MkToast ClientDialog.destructive (js "Error")
           (errorMessage error))
        qc' false
  end.

End Dialog.

End ProductDialog.

Module DeleteProductDialog.

Definition fallbackMessage : jsstring :=
  js "Failed to delete product. Please try again.".

Section Dialog.

Variable JSON_stringify : jsval -> jsval.
Variable deleteMutation : MutationOptions.

(** The message computed in the [catch] block of [handleDelete]. *)
Definition errorMessage (error : jsval) : jsval :=
  if instanceof_Error error then get error "message"
  else if truthy (get error "detail") then
    ClientDialog.detailText JSON_stringify (get error "detail")
  else VStr fallbackMessage.

(** What one run of [handleDelete] leaves behind. *)
Record Run : Type := MkRun {
  toast : option ClientDialog.Toast;
  client : QueryClient;
  closed : bool
}.

(** [handleDelete]; [product] is the id of the product, if any. *)
Definition handleDelete (product : option jsstring)
    (api : RemoteCall -> Outcome) (qc : QueryClient) : Run :=
  match product with
  | None => MkRun None qc false
  | Some id =>
      match mutateAsync deleteMutation api (VStr id) qc with
      | (Resolved _, qc') =>
          MkRun (Some (ClientDialog.MkToast ClientDialog.default
                         (js "Product deleted")
                         (VStr (js "Product has been deleted successfully."))))
                qc' true
      | (Rejected error, qc') =>
          MkRun (Some (ClientDialog.MkToast ClientDialog.destructive
                         (js "Error") (errorMessage error)))
                qc' false
      end
  end.

End Dialog.

End DeleteProductDialog.

(** ** app/(dashboard)/modules/layout.tsx *)

Module ModulesLayout.

(** [s.startsWith(prefix)] *)
Fixpoint startsWith (s prefix : jsstring) {struct prefix} : bool :=
  match prefix, s with
  | [], _ => true
  | p :: prefix', c :: s' => (c =? p) && startsWith s' prefix'
  | _ :: _, [] => false
  end.

(** [s.includes(sub)] *)
Fixpoint includes (s sub : jsstring) {struct s} : bool :=
  startsWith s sub
  || match s with
     | [] => false
     | _ :: s' => includes s' sub
     end.

(** [getActiveTab], for the current [pathname]. *)
Definition getActiveTab (pathname : jsstring) : jsstring :=
  if includes pathname (js "/modules/products") then js "products"
  else if includes pathname (js "/modules/categories") then js "categories"
  else js "modules".

(** [handleTabChange]: the route handed to [router.push], if any. *)
Definition handleTabChange (value : jsstring) : option jsstring :=
  if jsstring_eqb value (js "modules") then Some (js "/modules")
  else if jsstring_eqb value (js "products") then Some (js "/modules/products")
  else if jsstring_eqb value (js "categories") then Some (js "/modules/categories")
  else None.

End ModulesLayout.

(** ** The query hooks by collection *)

Module QueryHooks.




End QueryHooks.

(** * Properties *)

(** Turns a boolean comparison on code units into the proposition it
    decides, for [lia]. *)
Ltac reflect_bool H :=
  repeat first
    [ rewrite orb_true_iff in H | rewrite andb_true_iff in H
    | rewrite N.leb_le in H | rewrite N.eqb_eq in H ].

(** ** Strings *)

Section StringFacts.

Lemma js_eq_iff (a b : jsstring) : jsstring_eqb a b = true <-> a = b.
Proof. unfold jsstring_eqb. apply bool_decide_eq_true. Qed.

Lemma js_neq_iff (a b : jsstring) : jsstring_eqb a b = false <-> a <> b.
Proof. unfold jsstring_eqb. apply bool_decide_eq_false. Qed.

Lemma trimStart_no_space (s : jsstring) :
  Forall (fun c => is_space c = false) s -> trimStart s = s.
Proof.
  destruct 1 as [|c t Hc _]; simpl; [reflexivity|]. now rewrite Hc.
Qed.

Lemma trim_no_space (s : jsstring) :
  Forall (fun c => is_space c = false) s -> trim s = s.
Proof.
  intros H. unfold trim, trimEnd.
  rewrite (trimStart_no_space s H).
  rewrite trimStart_no_space.
  - apply rev_involutive.
  - now apply List.Forall_rev.
Qed.

(** [trimStart] returns a suffix that does not start with white space. *)
Lemma trimStart_head (s : jsstring) :
  match trimStart s with [] => True | c :: _ => is_space c = false end.
Proof.
  induction s as [|c t IH]; simpl; [exact I|].
  destruct (is_space c) eqn:E; [exact IH | exact E].
Qed.

Lemma trimStart_fixed (s : jsstring) :
  match s with [] => True | c :: _ => is_space c = false end ->
  trimStart s = s.
Proof. destruct s as [|c t]; simpl; [reflexivity|]. now intros ->. Qed.

Lemma trimStart_idem (s : jsstring) : trimStart (trimStart s) = trimStart s.
Proof. apply trimStart_fixed, trimStart_head. Qed.

(** Dropping white space at the end keeps the first code unit of a
    string that starts with none. *)
Lemma trimEnd_head (c : N) (t : jsstring) :
  is_space c = false -> exists t', trimEnd (c :: t) = c :: t'.
Proof.
  intros Hc. unfold trimEnd. simpl rev.
  assert (G : forall l : jsstring, exists l', trimStart (l ++ [c]) = l' ++ [c]).
  { induction l as [|x l IH]; simpl.
    - rewrite Hc. now exists [].
    - destruct (is_space x); [exact IH|]. now exists (x :: l). }
  destruct (G (rev t)) as [l' ->].
  rewrite rev_app_distr. simpl. now exists (rev l').
Qed.

Lemma trimEnd_idem (s : jsstring) : trimEnd (trimEnd s) = trimEnd s.
Proof.
  unfold trimEnd. rewrite rev_involutive. now rewrite trimStart_idem.
Qed.

(** [trim] is idempotent: a trimmed string has no white space left at
    either end. *)
Lemma trim_idem (s : jsstring) : trim (trim s) = trim s.
Proof.
  unfold trim.
  destruct (trimStart s) as [|c t] eqn:E; [reflexivity|].
  pose proof (trimStart_head s) as Hc. rewrite E in Hc.
  destruct (trimEnd_head c t Hc) as [t' Ht]. rewrite Ht.
  rewrite trimStart_fixed by exact Hc.
  rewrite <- Ht. apply trimEnd_idem.
Qed.

End StringFacts.

(** ** The slug helper *)

Section SlugFacts.

Import TenantForm.

Lemma slug_char_kept (c : N) : slug_char c = true -> kept c = true.
Proof.
  unfold slug_char, kept. intros H.
  repeat (apply orb_true_iff in H; destruct H as [H|H]); rewrite H;
    repeat rewrite ?orb_true_r, ?orb_true_l; reflexivity.
Qed.

Lemma slug_char_no_space (c : N) : slug_char c = true -> is_space c = false.
Proof.
  intros H. destruct (is_space c) eqn:E; [exfalso | reflexivity].
  unfold slug_char, is_lower, is_digit, is_hyphen, hyphen in H.
  unfold is_space in E.
  reflect_bool H. reflect_bool E. lia.
Qed.

Lemma kept_no_space (c : N) :
  kept c = true -> is_space c = false -> slug_char c = true.
Proof.
  unfold kept, slug_char. intros H Hs. rewrite Hs in H.
  now rewrite orb_false_r in H.
Qed.

Lemma hyphen_slug_char : slug_char hyphen = true.
Proof. reflexivity. Qed.

Lemma filter_kept (s : jsstring) :
  Forall (fun c => kept c = true) (List.filter kept s).
Proof.
  apply List.Forall_forall. intros c Hc. now apply filter_In in Hc.
Qed.

Lemma filter_fixed (s : jsstring) :
  Forall (fun c => slug_char c = true) s -> List.filter kept s = s.
Proof.
  induction 1 as [|c t Hc _ IH]; simpl; [reflexivity|].
  now rewrite (slug_char_kept c Hc), IH.
Qed.

(** Replacing the white-space runs of a filtered string leaves slug
    characters only. *)
Lemma replace_spaces_slug (s : jsstring) (b : bool) :
  Forall (fun c => kept c = true) s ->
  Forall (fun c => slug_char c = true) (replaceRuns is_space [hyphen] b s).
Proof.
  intros H. revert b. induction H as [|c t Hc _ IH]; intros b; simpl.
  - constructor.
  - destruct (is_space c) eqn:E.
    + destruct b; [apply IH|]. constructor; [reflexivity | apply IH].
    + constructor; [now apply kept_no_space | apply IH].
Qed.

Lemma replace_hyphens_slug (s : jsstring) (b : bool) :
  Forall (fun c => slug_char c = true) s ->
  Forall (fun c => slug_char c = true) (replaceRuns is_hyphen [hyphen] b s).
Proof.
  intros H. revert b. induction H as [|c t Hc _ IH]; intros b; simpl.
  - constructor.
  - destruct (is_hyphen c) eqn:E.
    + destruct b; [apply IH|]. constructor; [reflexivity | apply IH].
    + constructor; [exact Hc | apply IH].
Qed.

Lemma no_double_hyphen_cons (a b : N) (t : jsstring) :
  no_double_hyphen (a :: b :: t)
  = negb (is_hyphen a && is_hyphen b) && no_double_hyphen (b :: t).
Proof. reflexivity. Qed.

(** Collapsing hyphen runs leaves no two hyphens side by side; inside a
    run, what follows does not start with a hyphen. *)
Lemma replace_hyphens_no_double (s : jsstring) (b : bool) :
  no_double_hyphen (replaceRuns is_hyphen [hyphen] b s) = true
  /\ (b = true -> starts_with_hyphen (replaceRuns is_hyphen [hyphen] b s) = false).
Proof.
  revert b. induction s as [|c t IH]; intros b; simpl.
  - now split.
  - destruct (is_hyphen c) eqn:E.
    + destruct b.
      * apply IH.
      * destruct (IH true) as [H1 H2]. specialize (H2 eq_refl).
        split; [|discriminate]. simpl.
        destruct (replaceRuns is_hyphen [hyphen] true t) as [|x r] eqn:R;
          [reflexivity|].
        simpl in H2. rewrite H2. exact H1.
    + destruct (IH false) as [H1 _]. split.
      * destruct (replaceRuns is_hyphen [hyphen] false t) as [|x r] eqn:R;
          [reflexivity|].
        rewrite no_double_hyphen_cons, E. exact H1.
      * intros _. simpl. exact E.
Qed.

Lemma replace_spaces_fixed (s : jsstring) (b : bool) :
  Forall (fun c => is_space c = false) s ->
  replaceRuns is_space [hyphen] b s = s.
Proof.
  intros H. revert b. induction H as [|c t Hc _ IH]; intros b; simpl;
    [reflexivity|]. now rewrite Hc, IH.
Qed.

Lemma replace_hyphens_fixed (s : jsstring) (b : bool) :
  no_double_hyphen s = true ->
  (b = true -> starts_with_hyphen s = false) ->
  replaceRuns is_hyphen [hyphen] b s = s.
Proof.
  revert b. induction s as [|c t IH]; intros b Hn Hb; [reflexivity|].
  cbn [replaceRuns]. destruct (is_hyphen c) eqn:E.
  - destruct b.
    + specialize (Hb eq_refl). simpl in Hb. congruence.
    + apply N.eqb_eq in E. subst c. simpl. f_equal. apply IH.
      * destruct t; [reflexivity|]. simpl in Hn.
        now apply andb_true_iff in Hn.
      * intros _. destruct t as [|x r]; [reflexivity|]. simpl in Hn |- *.
        apply andb_true_iff in Hn. destruct Hn as [Hn _].
        now destruct (is_hyphen x).
  - f_equal. apply IH.
    + destruct t; [reflexivity|]. simpl in Hn.
      now apply andb_true_iff in Hn.
    + discriminate.
Qed.

(** The boolean check says what it should: no position holds a hyphen
    followed by a hyphen. *)
Lemma no_double_hyphen_spec (s : jsstring) :
  no_double_hyphen s = true ->
  forall l1 l2, s <> l1 ++ hyphen :: hyphen :: l2.
Proof.
  intros H l1. revert s H. induction l1 as [|x l1 IH]; intros s H l2 ->.
  - simpl in H. discriminate.
  - simpl in H. destruct (l1 ++ hyphen :: hyphen :: l2) as [|y r] eqn:E.
    + now destruct l1.
    + apply andb_true_iff in H. destruct H as [_ H].
      rewrite <- E in H. now apply (IH _ H l2).
Qed.

Lemma asciiLower_fixed (s : jsstring) :
  Forall (fun c => slug_char c = true) s -> asciiLower s = s.
Proof.
  induction 1 as [|c t Hc _ IH]; [reflexivity|].
  unfold asciiLower in *. cbn [List.map]. rewrite IH. f_equal.
  destruct ((65 <=? c) && (c <=? 90)) eqn:E; [exfalso | reflexivity].
  unfold slug_char, is_lower, is_digit, is_hyphen, hyphen in Hc.
  reflect_bool Hc. reflect_bool E. lia.
Qed.

End SlugFacts.

Section GenerateSlugCorrect.

Import TenantForm.

Variable toLowerCase : jsstring -> jsstring.

(** Lower-casing changes nothing in a string of lower-case ASCII
    letters, digits and hyphens. *)
Hypothesis toLowerCase_slug :
  forall s, Forall (fun c => slug_char c = true) s -> toLowerCase s = s.

Lemma generateSlug_unfold (s : jsstring) :
  let r := replaceRuns is_hyphen [hyphen] false
             (replaceRuns is_space [hyphen] false
                (List.filter kept (toLowerCase s))) in
  generateSlug toLowerCase s = r
  /\ Forall (fun c => slug_char c = true) r
  /\ no_double_hyphen r = true.
Proof.
  intros r.
  assert (Hr : Forall (fun c => slug_char c = true) r).
  { apply replace_hyphens_slug, replace_spaces_slug, filter_kept. }
  split; [|split].
  - unfold generateSlug. fold r. apply trim_no_space.
    eapply Forall_impl; [exact Hr|]. apply slug_char_no_space.
  - exact Hr.
  - apply replace_hyphens_no_double.
Qed.

(** C10: [generateSlug] is idempotent, and a generated slug holds only
    lower-case letters, digits and hyphens, with no two hyphens side
    by side. *)
Theorem generateSlug_idempotent_and_clean (s : jsstring) :
  generateSlug toLowerCase (generateSlug toLowerCase s)
  = generateSlug toLowerCase s
  /\ Forall (fun c => slug_char c = true) (generateSlug toLowerCase s)
  /\ (forall l1 l2,
        generateSlug toLowerCase s <> l1 ++ hyphen :: hyphen :: l2).
Proof.
  destruct (generateSlug_unfold s) as (E & Hc & Hn). cbv zeta in *.
  rewrite E.
  set (r := replaceRuns is_hyphen [hyphen] false _) in *.
  assert (Hs : Forall (fun c => is_space c = false) r).
  { eapply Forall_impl; [exact Hc|]. apply slug_char_no_space. }
  split; [|split].
  - unfold generateSlug.
    rewrite (toLowerCase_slug r Hc), (filter_fixed r Hc).
    rewrite (replace_spaces_fixed r false Hs).
    rewrite (replace_hyphens_fixed r false Hn) by discriminate.
    now apply trim_no_space.
  - exact Hc.
  - now apply no_double_hyphen_spec.
Qed.

End GenerateSlugCorrect.

Example generateSlug_company_name :
  TenantForm.generateSlug TenantForm.asciiLower (js "Acme Wealth Management")
  = js "acme-wealth-management".
Proof. reflexivity. Qed.

Example generateSlug_collapses_runs :
  TenantForm.generateSlug TenantForm.asciiLower (js "Acme  Wealth -- & Co.!")
  = js "acme-wealth-co".
Proof. reflexivity. Qed.

Lemma generateSlug_idempotent_and_clean_witness :
  (forall s, Forall (fun c => TenantForm.slug_char c = true) s ->
             TenantForm.asciiLower s = s)
  /\ TenantForm.generateSlug TenantForm.asciiLower
       (TenantForm.generateSlug TenantForm.asciiLower (js "Acme  Wealth -- & Co.!"))
     = TenantForm.generateSlug TenantForm.asciiLower (js "Acme  Wealth -- & Co.!").
Proof.
  split; [exact asciiLower_fixed|].
  apply (generateSlug_idempotent_and_clean TenantForm.asciiLower
           asciiLower_fixed (js "Acme  Wealth -- & Co.!")).
Defined.

(** ** Cache keys and invalidation *)

Section CacheFacts.

Import UseApi Bindings.

(** Invalidating a prefix marks every entry whose key it matches. *)
Lemma invalidate_matching (f : list jsstring) (q : Query) :
  partialMatchKey (queryKey q) f = true ->
  isInvalidated (invalidate f q) = true.
Proof. unfold invalidate. now intros ->. Qed.

Lemma invalidate_other (f : list jsstring) (q : Query) :
  partialMatchKey (queryKey q) f = false -> invalidate f q = q.
Proof. unfold invalidate. now intros ->. Qed.

Lemma partialMatchKey_head (s : jsstring) (k : QueryKey) (c : jsstring) :
  partialMatchKey (VStr s :: k) [c] = jsstring_eqb s c.
Proof. simpl. apply andb_true_r. Qed.

(** The item queries of [hooks/use-api] are keyed under their
    collection: the collection key is a strict prefix of theirs. *)
Lemma hook_item_keys_under_collection (id : jsstring) :
  Forall (fun '(c, q) =>
            partialMatchKey (qKey q) [js c] = true
            /\ length [js c] < length (qKey q))%nat
    [ ("tenants", useTenant id); ("users", useUser id);
      ("clients", useClient id None);
      ("clients", useClientAccounts id);
      ("clients", useClientDocuments id) ].
Proof. repeat constructor. Qed.

(** C1 (defect of the branding page): its tenant query is keyed
    ["tenant", id]. The collection key ["tenants"] is not a prefix of
    that key, so a successful tenant update, which invalidates
    ["tenants"] and ["tenants", id], marks the entry of [useTenant]
    stale and leaves the page's entry for the same tenant fresh. *)
Theorem branding_query_outside_tenants (id : jsstring) (d1 d2 d data : jsval) :
  let hook_entry := MkQuery (qKey (useTenant id)) d1 false in
  let page_entry := MkQuery (qKey (TenantBrandingPage.tenantQuery id)) d2 false in
  In ("tenants", TenantBrandingPage.tenantQuery id) (item_queries id)
  /\ queryFn (TenantBrandingPage.tenantQuery id) = queryFn (useTenant id)
  /\ head (qKey (TenantBrandingPage.tenantQuery id)) = Some (VStr (js "tenant"))
  /\ partialMatchKey (qKey (TenantBrandingPage.tenantQuery id)) [js "tenants"] = false
  /\ cache (snd (mutateAsync (useUpdateTenant id) (fun _ => Resolved d) data
                   (MkClient [hook_entry; page_entry] [])))
     = [MkQuery (qKey (useTenant id)) d1 true; page_entry].
Proof.
  intros hook_entry page_entry.
  split; [simpl; tauto|]. split; [reflexivity|]. split; [reflexivity|].
  split; [reflexivity|].
  assert (E : forall a, jsstring_eqb a a = true) by (intros; now apply js_eq_iff).
  assert (N : jsstring_eqb (js "tenant") (js "tenants") = false) by reflexivity.
  unfold mutateAsync, hook_entry, page_entry, invalidate.
  cbn -[js jsstring_eqb]. unfold invalidate. cbn -[js jsstring_eqb].
  rewrite !E, !N. cbn -[js jsstring_eqb]. rewrite !E. reflexivity.
Qed.

Example branding_query_stays_fresh :
  let page_entry :=
    MkQuery (qKey (TenantBrandingPage.tenantQuery (js "t1"))) VNull false in
  List.map isInvalidated
    (cache (invalidateQueries [js "tenants"] (MkClient [page_entry] [])))
  = [false].
Proof. reflexivity. Qed.

(** What a callback built from [invalidateQueries] does to the log. *)
Lemma log_invalidateQueries (f : list jsstring) (qc : QueryClient) :
  log (invalidateQueries f qc) = log qc ++ [Invalidated f].
Proof. reflexivity. Qed.

(** The prefixes each binding invalidates on success, read off its
    [onSuccess]. *)
Lemma invalidated_table (id : jsstring) :
  List.map invalidated (mutation_bindings id)
  = [ [[js "tenants"]]; [[js "tenants"]; [js "tenants"; id]];
      [[js "tenants"]]; [[js "tenants"]];
      [[js "users"]]; [[js "users"]; [js "users"; id]];
      [[js "users"]]; [[js "users"]]; [];
      [[js "clients"]; [js "stats"]];
      [[js "clients"]; [js "clients"; id]];
      [[js "clients"]; [js "stats"]];
      [[js "modules"]]; [[js "modules"]];
      [[js "products"]; [js "stats"]];
      [[js "products"]; [js "products"; id]];
      [[js "products"]; [js "stats"]] ].
Proof. reflexivity. Qed.

(** Running a binding's [onSuccess] invalidates its prefixes one after
    the other, and does nothing else. *)
Lemma onSuccess_runs_invalidations (id : jsstring) (b : MutationBinding)
    (qc : QueryClient) :
  In b (mutation_bindings id) ->
  run (onSuccess (options b)) qc
  = fold_left (fun c f => invalidateQueries f c) (invalidated b) qc
  /\ onError (options b) = None /\ onSettled (options b) = None.
Proof.
  intros Hin. unfold mutation_bindings, api_bindings, product_bindings in Hin.
  simpl in Hin.
  repeat (destruct Hin as [<-|Hin]; [now repeat split|]).
  destruct Hin.
Qed.

End CacheFacts.

Section InvalidationRules.

Import UseApi Bindings.

Ltac stats_absent H :=
  simpl in H;
  repeat (destruct H as [H|H]; [vm_compute in H; discriminate H|]);
  exact H.

Ltac rule_case :=
  cbn -[js];
  repeat split; intros;
  try discriminate; try congruence; try reflexivity;
  try (simpl; auto 6; fail);
  try match goal with
      | H : counted _ = true |- _ => vm_compute in H; discriminate H
      | |- ~ _ => let H := fresh in intros H; stats_absent H
      end.

(** C5 (as amended): every mutation binding but [useChangePassword],
    which declares no invalidation, invalidates its resource's
    collection key; an update also invalidates the item key; creating
    or deleting a client or a product also invalidates "stats";
    updating a client or a product invalidates the collection key and
    the item key only, not "stats"; and a successful mutation makes
    its one remote call and then invalidates exactly those prefixes. *)
Theorem invalidation_rules (id : jsstring) (b : MutationBinding) :
  In b (mutation_bindings id) ->
  (operation b <> ChangePassword -> In [js (collection b)] (invalidated b))
  /\ (operation b = ChangePassword -> invalidated b = [])
  /\ (operation b = Update -> In [js (collection b); id] (invalidated b))
  /\ (counted (collection b) = true ->
      creates_or_deletes (operation b) = true ->
      In [js "stats"] (invalidated b))
  /\ (counted (collection b) = true -> operation b = Update ->
      invalidated b = [[js (collection b)]; [js (collection b); id]]
      /\ ~ In [js "stats"] (invalidated b))
  /\ (forall api input qc d,
        api (mutationFn (options b) input) = Resolved d ->
        mutateAsync (options b) api input qc
        = (Resolved d,
           fold_left (fun c f => invalidateQueries f c) (invalidated b)
             (callRemote (mutationFn (options b) input) qc))).
Proof.
  intros Hin.
  assert (Hrun : forall api input qc d,
    api (mutationFn (options b) input) = Resolved d ->
    mutateAsync (options b) api input qc
    = (Resolved d,
       fold_left (fun c f => invalidateQueries f c) (invalidated b)
         (callRemote (mutationFn (options b) input) qc))).
  { intros api input qc d Hd. unfold mutateAsync. rewrite Hd.
    destruct (onSuccess_runs_invalidations id b
                (callRemote (mutationFn (options b) input) qc) Hin)
      as (E1 & _ & E3).
    now rewrite E3, E1. }
  revert Hrun. generalize (mutateAsync (options b)). intros m Hrun.
  unfold mutation_bindings, api_bindings, product_bindings in Hin.
  simpl in Hin.
  repeat (destruct Hin as [<-|Hin];
          [repeat (split; [|try exact Hrun]); rule_case|]).
  destruct Hin.
Qed.

Lemma invalidation_rules_witness :
  In (MkBinding "clients" Create useCreateClient) (mutation_bindings (js "c1"))
  /\ In [js "stats"] (invalidated (MkBinding "clients" Create useCreateClient))
  /\ In [js "clients"] (invalidated (MkBinding "clients" Create useCreateClient)).
Proof.
  assert (Hin : In (MkBinding "clients" Create useCreateClient)
                  (mutation_bindings (js "c1"))).
  { unfold mutation_bindings, api_bindings. simpl. tauto. }
  split; [exact Hin|].
  destruct (invalidation_rules (js "c1") _ Hin) as (H1 & _ & _ & H4 & _).
  split; [apply H4; reflexivity | apply H1; discriminate].
Defined.

(** C5 as first stated fails at the password binding: it is a mutation
    on the users resource that invalidates nothing, so not the "users"
    collection key either. *)
Lemma change_password_invalidates_nothing :
  let b := MkBinding "users" ChangePassword (useChangePassword (js "u1")) in
  let users := MkQuery [VStr (js "users"); VUndefined] VNull false in
  let done := mutateAsync (options b) (fun _ => Resolved VNull)
                (VObj false [("new_password", VStr (js "correct horse"))])
                (MkClient [users] []) in
  In b (mutation_bindings (js "u1"))
  /\ invalidated b = []
  /\ ~ In [js (collection b)] (invalidated b)
  /\ fst done = Resolved VNull
  /\ cache (snd done) = [users].
Proof.
  split; [simpl; tauto|]. split; [reflexivity|]. split; [intros []|].
  split; reflexivity.
Qed.

End InvalidationRules.

Section FailedMutation.

Import UseApi Bindings.

Lemma log_fold_invalidate (fs : list (list jsstring)) (qc : QueryClient) :
  log (fold_left (fun c f => invalidateQueries f c) fs qc)
  = log qc ++ List.map Invalidated fs.
Proof.
  revert qc. induction fs as [|f fs IH]; intros qc; simpl.
  - now rewrite app_nil_r.
  - rewrite IH, log_invalidateQueries, <- app_assoc. reflexivity.
Qed.

Lemma api_bindings_incl (id : jsstring) (b : MutationBinding) :
  In b (api_bindings id) -> In b (mutation_bindings id).
Proof. intros H. apply in_or_app. now left. Qed.

(** C6: when the remote call of a mutation binding fails, the caller
    gets that very error and the query client has made the call and
    nothing else: every cache entry is as it was and nothing was
    invalidated. When the call succeeds, the invalidations are logged
    after the call, never before it. *)
Theorem failed_mutation_invalidates_nothing (id : jsstring)
    (b : MutationBinding) (api : RemoteCall -> Outcome) (input e : jsval)
    (qc : QueryClient) :
  In b (api_bindings id) ->
  api (mutationFn (options b) input) = Rejected e ->
  mutateAsync (options b) api input qc
  = (Rejected e,
     MkClient (cache qc) (log qc ++ [Called (mutationFn (options b) input)]))
  /\ (forall api' d,
        api' (mutationFn (options b) input) = Resolved d ->
        log (snd (mutateAsync (options b) api' input qc))
        = log qc ++ Called (mutationFn (options b) input)
                    :: List.map Invalidated (invalidated b)).
Proof.
  intros Hin He. apply api_bindings_incl in Hin.
  destruct (onSuccess_runs_invalidations id b
              (callRemote (mutationFn (options b) input) qc) Hin)
    as (E1 & E2 & E3).
  split.
  - unfold mutateAsync. rewrite He, E2, E3. reflexivity.
  - intros api' d Hd. unfold mutateAsync. rewrite Hd, E3, E1.
    cbn [snd run]. rewrite log_fold_invalidate. cbn [callRemote log].
    now rewrite <- app_assoc.
Qed.

Lemma failed_mutation_invalidates_nothing_witness :
  let b := MkBinding "tenants" Create useCreateTenant in
  let stale := MkQuery [VStr (js "tenants")] VNull false in
  let qc := MkClient [stale] [] in
  let api := fun _ : RemoteCall => Rejected (VStr (js "409 Conflict")) in
  In b (api_bindings (js "t1"))
  /\ api (mutationFn (options b) VNull) = Rejected (VStr (js "409 Conflict"))
  /\ mutateAsync (options b) api VNull qc
     = (Rejected (VStr (js "409 Conflict")),
        MkClient [stale] [Called (Call "tenants.create" [VNull])]).
Proof.
  intros b stale qc api.
  assert (Hin : In b (api_bindings (js "t1"))) by (simpl; tauto).
  assert (He : api (mutationFn (options b) VNull)
               = Rejected (VStr (js "409 Conflict"))) by reflexivity.
  split; [exact Hin|]. split; [exact He|].
  exact (proj1 (failed_mutation_invalidates_nothing (js "t1") b api VNull
                  (VStr (js "409 Conflict")) qc Hin He)).
Defined.

End FailedMutation.

(** ** The typed confirmation of the tenant dialog *)

Section TypedConfirmation.

Import DeleteTenantDialog.

(** While a deletion is in flight the action is disabled whatever was
    typed. *)
Lemma action_disabled_while_deleting (mode : Mode) (t : Tenant) (text : jsstring) :
  actionDisabled mode t (MkState true text) = true.
Proof. now destruct mode. Qed.

(** C2 (as amended): in the permanent-delete dialog the action is
    enabled if and only if no deletion is in flight and the typed text
    is exactly the tenant's slug, code unit for code unit; any other
    text keeps it disabled, and [handleDelete] then returns without
    calling the remote API or touching the dialog state. *)
Theorem permanent_delete_needs_exact_slug (t : Tenant) (st : State) :
  (actionEnabled permanent t st = true
   <-> isDeleting st = false /\ confirmText st = slug t)
  /\ (confirmText st <> slug t -> actionDisabled permanent t st = true)
  /\ (forall api qc,
        confirmText st <> slug t ->
        handleDelete permanent (Some t) api st qc = MkRun st qc false)
  /\ (forall api qc,
        confirmText st = slug t ->
        log (client (handleDelete permanent (Some t) api st qc))
        = log qc ++ Called (Call "tenants.deletePermanent" [VStr (id t)])
                    :: match api (Call "tenants.deletePermanent" [VStr (id t)]) with
                       | Resolved _ => [Invalidated [js "tenants"]]
                       | Rejected _ => []
                       end).
Proof.
  unfold actionEnabled, actionDisabled, handleDelete.
  repeat split.
  - destruct (isDeleting st); [discriminate | reflexivity].
  - destruct (isDeleting st); [discriminate|]. simpl in H.
    apply negb_true_iff, negb_false_iff in H. now apply js_eq_iff.
  - intros [-> E]. apply js_eq_iff in E. now rewrite E.
  - intros Hne. apply js_neq_iff in Hne. rewrite Hne. apply orb_true_r.
  - intros api qc Hne. apply js_neq_iff in Hne. now rewrite Hne.
  - intros api qc E. apply js_eq_iff in E. rewrite E. cbn [negb].
    unfold mutateAsync. cbn -[js].
    destruct (api _); cbn -[js]; now rewrite <- ?app_assoc.
Qed.

(** C2 as first stated fails during a deletion: the slug is typed in
    full and the action is nevertheless disabled. *)
Lemma matching_slug_disabled_while_deleting :
  let t := MkTenant (js "t1") (js "Acme Wealth") (js "acme-wealth") in
  let st := deleting (setConfirmText (js "acme-wealth") initial) in
  confirmText st = slug t /\ actionEnabled permanent t st = false.
Proof. split; reflexivity. Qed.

Example slug_typed_enables :
  actionEnabled permanent
    (MkTenant (js "t1") (js "Acme Wealth") (js "acme-wealth"))
    (setConfirmText (js "acme-wealth") initial) = true.
Proof. reflexivity. Qed.

Example trailing_space_keeps_disabled :
  actionEnabled permanent
    (MkTenant (js "t1") (js "Acme Wealth") (js "acme-wealth"))
    (setConfirmText (js "acme-wealth ") initial) = false.
Proof. reflexivity. Qed.

Example upper_case_keeps_disabled :
  actionEnabled permanent
    (MkTenant (js "t1") (js "Acme Wealth") (js "acme-wealth"))
    (setConfirmText (js "Acme-Wealth") initial) = false.
Proof. reflexivity. Qed.

Example prefix_keeps_disabled :
  actionEnabled permanent
    (MkTenant (js "t1") (js "Acme Wealth") (js "acme-wealth"))
    (setConfirmText (js "acme") initial) = false.
Proof. reflexivity. Qed.

End TypedConfirmation.

(** ** Error extraction in the client dialog *)

Section ErrorExtraction.

Import ClientDialog.

Variable JSON_stringify : jsval -> jsval.

(** C7 (as amended): the dialog computes the displayed message in this
    order: the [message] of an [Error] instance; the error itself when
    it is a string; a truthy [message] field; a truthy [detail] field
    (rendered as JSON unless it is a string); the fallback literal. So
    an error object carrying both a truthy [message] and a [detail]
    shows its [message], and [detail] is shown only when there is no
    truthy [message] and the error is not an [Error] instance. The
    failure toast shows exactly that message and the dialog stays
    open. *)
Theorem error_message_priority (error : jsval) :
  (instanceof_Error error = true ->
     errorMessage JSON_stringify error = get error "message")
  /\ (forall s, error = VStr s -> errorMessage JSON_stringify error = VStr s)
  /\ (truthy (get error "message") = true ->
        errorMessage JSON_stringify error = get error "message")
  /\ (instanceof_Error error = false ->
      truthy (get error "message") = false ->
      truthy (get error "detail") = true ->
        errorMessage JSON_stringify error
        = detailText JSON_stringify (get error "detail"))
  /\ (instanceof_Error error = false ->
      (forall s, error <> VStr s) ->
      truthy (get error "message") = false ->
      truthy (get error "detail") = false ->
        errorMessage JSON_stringify error = VStr fallbackMessage)
  /\ (forall editing api data qc,
        api (mutationFn (match editing with
                         | Some id => UseApi.useUpdateClient id
                         | None => UseApi.useCreateClient
                         end) data) = Rejected error ->
        let r := handleSubmit JSON_stringify editing api data qc in
        toast r = MkToast destructive (js "Error")
                    (errorMessage JSON_stringify error)
        /\ closed r = false).
Proof.
  unfold errorMessage, detailText.
  split; [now intros ->|].
  split; [now intros s ->|].
  split.
  { intros Hm. destruct (instanceof_Error error); [reflexivity|].
    destruct error; cbn [get] in *; try discriminate.
    now rewrite Hm. }
  split.
  { intros -> Hm Hd. destruct error; cbn [get] in *; try discriminate.
    rewrite Hm, Hd. now destruct (assoc "detail" props). }
  split.
  { intros -> Hs Hm Hd. destruct error; cbn [get] in *; try reflexivity.
    - now destruct (Hs s).
    - now rewrite Hm, Hd. }
  intros editing api data qc He. unfold handleSubmit, mutateAsync.
  destruct editing as [id|]; cbn -[js] in He |- *; now rewrite He.
Qed.

End ErrorExtraction.

(** C7 as first stated fails: an error object with both fields shows its
    [message], not its [detail] (the rendering of a non-string [detail]
    plays no part here, so any function stands for it). *)
Lemma message_shown_before_detail :
  let error := VObj false [ ("detail", VStr (js "Email already registered"));
                            ("message", VStr (js "Request failed")) ] in
  truthy (get error "detail") = true
  /\ truthy (get error "message") = true
  /\ ClientDialog.errorMessage (fun d => d) error = VStr (js "Request failed")
  /\ ClientDialog.errorMessage (fun d => d) error <> get error "detail".
Proof. repeat split. discriminate. Qed.

(** ** The client form *)

Section ClientFormFacts.

Import ClientForm.

Variable is_email : jsstring -> bool.
Variable JSON_parse : jsstring -> option jsval.

Lemma blank_falsy (v : option jsstring) : blank v <-> opt_truthy v = false.
Proof.
  unfold blank. destruct v as [[|c s]|]; simpl; split; intros H;
    try reflexivity; try discriminate; try tauto.
  destruct H as [H|H]; discriminate H.
Qed.

Lemma emailIssues_path (v : option jsstring) (i : Issue) :
  In i (emailIssues is_email v) -> path i = ["email"].
Proof.
  unfold emailIssues. destruct v as [s|]; [|intros []].
  destruct (is_email s); [intros []|].
  destruct (jsstring_eqb s []); [intros []|].
  now intros [<-|[]].
Qed.

(** C3: a submission whose [client_type] is "individual" and whose
    first or last name is missing or empty, or whose [client_type] is
    "entity" or "trust" and whose entity name is missing or empty,
    fails validation: [handleSubmit] is not called, the cross-field
    issue is attached to the path [client_type], and no issue is
    attached to [first_name], [last_name] or [entity_name]. *)
Theorem missing_names_fail_on_client_type (data : ClientFormData) :
  (client_type data = individual
     /\ (blank (first_name data) \/ blank (last_name data)))
  \/ ((client_type data = entity \/ client_type data = trust)
        /\ blank (entity_name data)) ->
  exists issues,
    submit is_email JSON_parse data = inl issues
    /\ In (MkIssue ["client_type"] refineMessage) issues
    /\ forall i, In i issues ->
         path i <> ["first_name"] /\ path i <> ["last_name"]
         /\ path i <> ["entity_name"].
Proof.
  intros H.
  assert (R : refinement data = false).
  { unfold refinement.
    destruct H as [(-> & [B|B]) | ([-> | ->] & B)];
      apply blank_falsy in B; rewrite B; auto using andb_false_r. }
  exists (clientSchema is_email data).
  assert (Hin : In (MkIssue ["client_type"] refineMessage)
                  (clientSchema is_email data)).
  { unfold clientSchema. rewrite R. apply in_or_app. right. now left. }
  split; [|split].
  - unfold submit. destruct (clientSchema is_email data); [destruct Hin|].
    reflexivity.
  - exact Hin.
  - intros i Hi. unfold clientSchema in Hi. rewrite R in Hi.
    apply in_app_or in Hi. destruct Hi as [Hi|[<-|[]]].
    + apply emailIssues_path in Hi. rewrite Hi. repeat split; discriminate.
    + repeat split; discriminate.
Qed.

(** C8: in create mode, a change of [client_type] to "entity" or
    "trust" empties [first_name] and [last_name], a change to
    "individual" empties [entity_name], and every other field keeps
    its value; so an entity name typed before switching back to
    "individual" is gone, and stays gone when switching to the entity
    form again. *)
Theorem client_type_change_clears_other_names (t : ClientType)
    (st : ClientFormData) :
  t <> client_type st ->
  let st' := changeClientType create t st in
  client_type st' = t
  /\ (t = entity \/ t = trust ->
        first_name st' = Some [] /\ last_name st' = Some []
        /\ entity_name st' = entity_name st)
  /\ (t = individual ->
        entity_name st' = Some []
        /\ first_name st' = first_name st /\ last_name st' = last_name st)
  /\ (email st' = email st /\ phone st' = phone st
      /\ risk_profile st' = risk_profile st
      /\ kyc_status st' = kyc_status st
      /\ extra_data st' = extra_data st)
  /\ (client_type st = individual -> forall typed,
        let back :=
          changeClientType create individual
            (typeEntityName typed (changeClientType create t st)) in
        client_type back = individual
        /\ entity_name back = Some []
        /\ first_name back = Some [] /\ last_name back = Some []
        /\ entity_name (changeClientType create t back) = Some []).
Proof.
  intros Hne st'. subst st'. unfold changeClientType.
  destruct (decide (t = client_type st)) as [E|_]; [contradiction|].
  split; [now destruct t|].
  split; [now intros [-> | ->]|].
  split; [now intros ->|].
  split; [now destruct t|].
  intros Hi typed. rewrite Hi in Hne.
  destruct t; [contradiction| |]; simpl; repeat split; reflexivity.
Qed.

End ClientFormFacts.

Section ClientPayload.

Import ClientForm.

Variable is_email : jsstring -> bool.
Variable JSON_parse : jsstring -> option jsval.

Lemma lookup_setTrimmed (k k' : string) (v : option jsstring)
    (m : gmap string jsval) :
  setTrimmed k v m !! k'
  = if decide (k = k') then
      match trimmedValue v with Some x => Some x | None => m !! k' end
    else m !! k'.
Proof.
  unfold setTrimmed, trimmedValue.
  destruct v as [s|]; [destruct (str_truthy (trim s))|];
    rewrite ?lookup_insert; now case_decide.
Qed.

Lemma lookup_setEnum {A} (name : A -> string) (k k' : string)
    (v : option A) (m : gmap string jsval) :
  setEnum name k v m !! k'
  = if decide (k = k') then
      match v with Some a => Some (VStr (js (name a))) | None => m !! k' end
    else m !! k'.
Proof.
  unfold setEnum. destruct v; rewrite ?lookup_insert; now case_decide.
Qed.

(** A stored string field is the trimmed, non-empty form of what was
    typed. *)
Lemma trimmedValue_some (v : option jsstring) (x : jsval) :
  trimmedValue v = Some x ->
  exists s, v = Some s /\ x = VStr (trim s) /\ trim s <> []
            /\ trim (trim s) = trim s.
Proof.
  unfold trimmedValue. destruct v as [s|]; [|discriminate].
  destruct (trim s) eqn:E; [discriminate|]. simpl. intros [= <-].
  exists s. rewrite E. repeat split; [discriminate|].
  rewrite <- E. apply trim_idem.
Qed.

Lemma trimmedValue_none (v : option jsstring) :
  trimmedValue v = None <-> v = None \/ exists s, v = Some s /\ trim s = [].
Proof.
  unfold trimmedValue. destruct v as [s|]; [|tauto].
  destruct (trim s) eqn:E; simpl; split; try discriminate; eauto.
  intros [H|(s' & [= <-] & H)]; [discriminate | congruence].
Qed.

(** The names of the enumerated values carry no white space. *)
Lemma enum_names_trimmed :
  (forall t, trim (js (clientType_name t)) = js (clientType_name t))
  /\ (forall r, trim (js (riskProfile_name r)) = js (riskProfile_name r))
  /\ (forall k, trim (js (kycStatus_name k)) = js (kycStatus_name k)).
Proof. repeat split; intros []; reflexivity. Qed.

(** The payload, key by key. *)
Lemma payload_fields (data : ClientFormData) :
  let payload := handleSubmit JSON_parse data in
  payload !! "client_type" = Some (VStr (js (clientType_name (client_type data))))
  /\ payload !! "first_name" = trimmedValue (first_name data)
  /\ payload !! "last_name" = trimmedValue (last_name data)
  /\ payload !! "entity_name" = trimmedValue (entity_name data)
  /\ payload !! "email" = trimmedValue (email data)
  /\ payload !! "phone" = trimmedValue (phone data)
  /\ payload !! "risk_profile"
     = (fun r => VStr (js (riskProfile_name r))) <$> risk_profile data
  /\ payload !! "kyc_status"
     = (fun k => VStr (js (kycStatus_name k))) <$> kyc_status data
  /\ payload !! "extra_data"
     = match extra_data data with
       | Some s => if str_truthy (trim s) then JSON_parse s else None
       | None => None
       end
  /\ (clientSchema is_email data = [] ->
      submit is_email JSON_parse data = inr payload).
Proof.
  intros payload. subst payload.
  split; [|split; [|split; [|split; [|split; [|split; [|split;
    [|split; [|split]]]]]]]].
  10: { unfold submit. now intros ->. }
  all: unfold handleSubmit.
  all: destruct (extra_data data) as [x|];
    [destruct (str_truthy (trim x)); [destruct (JSON_parse x)|]|].
  all: repeat (rewrite ?lookup_insert, ?lookup_setTrimmed, ?lookup_setEnum,
                 ?lookup_singleton;
               repeat (case_decide; try done)).
  all: try (destruct (trimmedValue _)); try (destruct (risk_profile data));
    try (destruct (kyc_status data)); reflexivity.
Qed.

(** C9: the payload handed to [onSubmit]. Each of the free-text
    fields [first_name], [last_name], [entity_name], [email] and
    [phone] is included exactly when its trimmed value is not empty,
    and then holds the trimmed value (which has no white space left
    at either end); a field that is [undefined] or blank is left out,
    its key absent. [extra_data], when not blank, is handed to
    [JSON.parse]: the parsed value is included on success, and on a
    parse failure the key is left out and the submission goes on with
    the other fields. Valid input always reaches [onSubmit]. *)
Theorem payload_is_normalized (data : ClientFormData) :
  let payload := handleSubmit JSON_parse data in
  (forall k v, In (k, v) (string_fields data) ->
     (forall s, v = Some s -> trim s <> [] ->
        payload !! k = Some (VStr (trim s)))
     /\ (forall s, v = Some s -> trim s = [] -> payload !! k = None)
     /\ (v = None -> payload !! k = None)
     /\ (forall x, payload !! k = Some x ->
           exists s, x = VStr s /\ trim s = s /\ s <> []))
  /\ (forall s v, extra_data data = Some s -> trim s <> [] ->
        JSON_parse s = Some v -> payload !! "extra_data" = Some v)
  /\ (forall s, extra_data data = Some s -> trim s <> [] ->
        JSON_parse s = None -> payload !! "extra_data" = None)
  /\ (forall s, extra_data data = Some s -> trim s = [] ->
        payload !! "extra_data" = None)
  /\ (extra_data data = None -> payload !! "extra_data" = None)
  /\ payload !! "client_type"
     = Some (VStr (js (clientType_name (client_type data))))
  /\ (clientSchema is_email data = [] ->
      submit is_email JSON_parse data = inr payload).
Proof.
  intros payload.
  destruct (payload_fields data)
    as (Hc & H1 & H2 & H3 & H4 & H5 & _ & _ & He & Hs).
  fold payload in Hc, H1, H2, H3, H4, H5, He, Hs.
  assert (Hk : forall k v, In (k, v) (string_fields data) ->
                 payload !! k = trimmedValue v).
  { intros k v Hin. simpl in Hin.
    destruct Hin as [[= <- <-]|[[= <- <-]|[[= <- <-]|[[= <- <-]|[[= <- <-]|[]]]]]];
      assumption. }
  split; [|repeat split].
  - intros k v Hin. rewrite (Hk k v Hin). repeat split.
    + intros s -> Hn. unfold trimmedValue.
      destruct (trim s); [contradiction | reflexivity].
    + intros s -> Hn. unfold trimmedValue. now rewrite Hn.
    + now intros ->.
    + intros x Hx. apply trimmedValue_some in Hx.
      destruct Hx as (s & _ & -> & Hn & Hi). now exists (trim s).
  - intros s v E Hn Hp. rewrite He, E.
    destruct (trim s); [contradiction | exact Hp].
  - intros s E Hn Hp. rewrite He, E.
    destruct (trim s); [contradiction | exact Hp].
  - intros s E Hn. rewrite He, E. now rewrite Hn.
  - intros E. now rewrite He, E.
  - exact Hc.
  - exact Hs.
Qed.

End ClientPayload.

(** ** The user form *)

Section UserFormFacts.

Import UserForm.

Variable is_email : jsstring -> bool.

Lemma issuesAt_app (f : string) (a b : list Issue) :
  issuesAt f (a ++ b) = issuesAt f a ++ issuesAt f b.
Proof. apply List.filter_app. Qed.

Lemma lengthIssues_other (f g : string) (lo hi : nat) (m1 m2 : string)
    (s : jsstring) :
  g <> f -> issuesAt f (lengthIssues g lo hi m1 m2 s) = [].
Proof.
  intros Hne. unfold lengthIssues, issuesAt.
  assert (E : bool_decide ([g] = [f]) = false).
  { apply bool_decide_eq_false. intros [= ?]. contradiction. }
  destruct (Nat.ltb _ lo), (Nat.ltb hi _); simpl; now rewrite ?E.
Qed.

Lemma lengthIssues_same (f : string) (lo hi : nat) (m1 m2 : string)
    (s : jsstring) :
  issuesAt f (lengthIssues f lo hi m1 m2 s) = lengthIssues f lo hi m1 m2 s.
Proof.
  unfold lengthIssues, issuesAt.
  assert (E : bool_decide ([f] = [f]) = true) by now apply bool_decide_eq_true.
  destruct (Nat.ltb _ lo), (Nat.ltb hi _); simpl; now rewrite ?E.
Qed.

Lemma baseIssues_not_password (v : UserFormValues) :
  issuesAt "password" (baseIssues is_email v) = [].
Proof.
  unfold baseIssues. rewrite !issuesAt_app.
  rewrite !lengthIssues_other by discriminate.
  now destruct (is_email (email v)).
Qed.

Lemma passwordChecks_ok (s : jsstring) :
  passwordChecks s = [] <-> (8 <= length s <= 100)%nat.
Proof.
  unfold passwordChecks, lengthIssues.
  destruct (Nat.ltb_spec (length s) 8), (Nat.ltb_spec 100 (length s));
    simpl; split; intros G; try discriminate; try reflexivity; lia.
Qed.

Lemma passwordChecks_short (s : jsstring) :
  (length s < 8)%nat -> passwordChecks s = [tooShort].
Proof.
  intros H. unfold passwordChecks, lengthIssues.
  destruct (Nat.ltb_spec (length s) 8), (Nat.ltb_spec 100 (length s));
    simpl; try reflexivity; lia.
Qed.

Lemma issuesAt_create (v : UserFormValues) :
  issuesAt "password" (schema is_email create v) = createPassword (password v).
Proof.
  simpl. unfold createUserSchema.
  rewrite issuesAt_app, baseIssues_not_password. simpl.
  unfold createPassword. destruct (password v); [|reflexivity].
  apply lengthIssues_same.
Qed.

Lemma issuesAt_edit (v : UserFormValues) :
  issuesAt "password" (schema is_email edit v) = editPassword (password v).
Proof.
  simpl. unfold editUserSchema.
  rewrite issuesAt_app, baseIssues_not_password. simpl.
  unfold editPassword. destruct (password v) as [s|]; [|reflexivity].
  pose proof (lengthIssues_same "password" 8 100
    "Password must be at least 8 characters"
    "Password must be less than 100 characters" s) as E.
  fold (passwordChecks s) in E.
  destruct (passwordChecks s); [reflexivity|].
  destruct (jsstring_eqb s []); [reflexivity | exact E].
Qed.

Lemma payload_password (show : bool) (cur : option jsstring)
    (v : UserFormValues) :
  handleSubmit show cur v !! "password" = Some (orUndefined (password v)).
Proof.
  unfold handleSubmit.
  rewrite lookup_insert_ne by discriminate. apply lookup_insert_eq.
Qed.

(** C4 (as amended): in create mode the password must be a string of
    at least 8 (and at most 100) characters. In edit mode a blank
    password passes validation and the payload's [password] property
    is [undefined]: the key is kept, with no value, so a JSON body
    made from the payload carries no password; the payload never holds
    an empty password. A non-empty password shorter than 8 characters
    fails validation in edit mode as in create mode. *)
Theorem password_rules (show : bool) (cur : option jsstring)
    (v : UserFormValues) :
  (issuesAt "password" (schema is_email create v) = []
   <-> exists p, password v = Some p /\ (8 <= length p <= 100)%nat)
  /\ (forall p, password v = Some p -> (length p < 8)%nat ->
        In tooShort (schema is_email create v)
        /\ submit is_email create show cur v
           = inl (schema is_email create v))
  /\ (password v = Some [] ->
        issuesAt "password" (schema is_email edit v) = []
        /\ handleSubmit show cur v !! "password" = Some VUndefined
        /\ (baseIssues is_email v = [] ->
            submit is_email edit show cur v = inr (handleSubmit show cur v)))
  /\ (forall p, password v = Some p -> p <> [] -> (length p < 8)%nat ->
        In tooShort (schema is_email edit v)
        /\ submit is_email edit show cur v = inl (schema is_email edit v))
  /\ handleSubmit show cur v !! "password" <> Some (VStr []).
Proof.
  split; [|split; [|split; [|split]]].
  - rewrite issuesAt_create. unfold createPassword.
    destruct (password v) as [p|].
    + rewrite passwordChecks_ok. split; [eauto|]. now intros (? & [= <-] & ?).
    + split; [discriminate|]. now intros (? & [= ] & _).
  - intros p E Hp.
    assert (Hin : In tooShort (schema is_email create v)).
    { simpl. unfold createUserSchema. apply in_or_app. right.
      rewrite E. simpl. rewrite passwordChecks_short by exact Hp. now left. }
    split; [exact Hin|]. unfold submit.
    destruct (schema is_email create v); [destruct Hin | reflexivity].
  - intros E. split; [|split].
    + now rewrite issuesAt_edit, E.
    + now rewrite payload_password, E.
    + intros Hb. unfold submit. simpl. unfold editUserSchema.
      now rewrite Hb, E.
  - intros p E Hne Hp.
    assert (Hin : In tooShort (schema is_email edit v)).
    { simpl. unfold editUserSchema. apply in_or_app. right.
      rewrite E. simpl. rewrite passwordChecks_short by exact Hp.
      apply js_neq_iff in Hne. rewrite Hne. now left. }
    split; [exact Hin|]. unfold submit.
    destruct (schema is_email edit v); [destruct Hin | reflexivity].
  - rewrite payload_password. unfold orUndefined.
    destruct (password v) as [[|c p]|]; simpl; discriminate.
Qed.

End UserFormFacts.

(** C4 as first stated fails on the payload: with a blank password in
    edit mode the object handed to [onSubmit] still has the key
    [password] (holding [undefined]), it is not left out. *)
Lemma blank_password_key_is_kept :
  let values := UserForm.MkUserFormValues (js "ada@example.com") (js "Ada")
                  (js "Lovelace") (Some []) true None None in
  let payload := UserForm.handleSubmit false (Some (js "t1")) values in
  UserForm.editPassword (UserForm.password values) = []
  /\ payload !! "password" = Some VUndefined
  /\ payload !! "password" <> None
  /\ "password" ∈ dom payload.
Proof.
  intros values payload.
  assert (E : payload !! "password" = Some VUndefined).
  { unfold payload, UserForm.handleSubmit.
    rewrite lookup_insert_ne by discriminate. now rewrite lookup_insert_eq. }
  split; [reflexivity|]. split; [exact E|]. split; [now rewrite E|].
  apply elem_of_dom. rewrite E. eauto.
Qed.

(** ** The theorems at concrete inputs *)

Lemma missing_names_fail_on_client_type_witness :
  let data :=
    ClientForm.MkClientFormData ClientForm.individual (Some []) (Some (js "Doe"))
      (Some []) (Some []) (Some []) None (Some ClientForm.pending) (Some []) in
  (ClientForm.client_type data = ClientForm.individual
   /\ (ClientForm.blank (ClientForm.first_name data)
       \/ ClientForm.blank (ClientForm.last_name data)))
  /\ exists issues,
       ClientForm.submit hasAtSign (fun _ => None) data = inl issues
       /\ In (ClientForm.MkIssue ["client_type"] ClientForm.refineMessage) issues
       /\ forall i, In i issues ->
            ClientForm.path i <> ["first_name"]
            /\ ClientForm.path i <> ["last_name"]
            /\ ClientForm.path i <> ["entity_name"].
Proof.
  intros data.
  assert (H : ClientForm.client_type data = ClientForm.individual
              /\ (ClientForm.blank (ClientForm.first_name data)
                  \/ ClientForm.blank (ClientForm.last_name data))).
  { split; [reflexivity|]. left. right. reflexivity. }
  split; [exact H|].
  exact (missing_names_fail_on_client_type hasAtSign (fun _ => None) data
           (or_introl H)).
Defined.

Lemma client_type_change_clears_other_names_witness :
  let st :=
    ClientForm.MkClientFormData ClientForm.individual (Some (js "Ada"))
      (Some (js "Lovelace")) (Some []) (Some (js "ada@example.com")) (Some [])
      None (Some ClientForm.pending) (Some []) in
  let st' := ClientForm.changeClientType ClientForm.create ClientForm.entity st in
  ClientForm.entity <> ClientForm.client_type st
  /\ ClientForm.first_name st' = Some []
  /\ ClientForm.last_name st' = Some []
  /\ ClientForm.email st' = Some (js "ada@example.com").
Proof.
  intros st st'.
  assert (H : ClientForm.entity <> ClientForm.client_type st) by discriminate.
  split; [exact H|].
  destruct (client_type_change_clears_other_names ClientForm.entity st H)
    as (_ & Hn & _ & (He & _) & _).
  destruct (Hn (or_introl eq_refl)) as (H1 & H2 & _).
  split; [exact H1|]. split; [exact H2|]. exact He.
Defined.

Example entity_name_not_resurrected :
  let st :=
    ClientForm.typeEntityName (js "ABC Corporation")
      (ClientForm.changeClientType ClientForm.create ClientForm.entity
         (ClientForm.defaultValues ClientForm.create)) in
  ClientForm.entity_name
    (ClientForm.changeClientType ClientForm.create ClientForm.entity
       (ClientForm.changeClientType ClientForm.create ClientForm.individual st))
  = Some [].
Proof. reflexivity. Qed.

Example client_payload_sample :
  let data :=
    ClientForm.MkClientFormData ClientForm.individual (Some (js "  Ada "))
      (Some (js "Lovelace")) (Some []) (Some (js "   ")) None
      None (Some ClientForm.pending) (Some (js "{not json")) in
  let payload := ClientForm.handleSubmit (fun _ => None) data in
  payload !! "first_name" = Some (VStr (js "Ada"))
  /\ payload !! "email" = None
  /\ payload !! "phone" = None
  /\ payload !! "extra_data" = None
  /\ payload !! "kyc_status" = Some (VStr (js "pending")).
Proof. repeat split. Qed.

Example short_password_rejected_in_edit_mode :
  UserForm.editPassword (Some (js "abcd")) = [UserForm.tooShort]
  /\ UserForm.createPassword (Some (js "abcd")) = [UserForm.tooShort]
  /\ UserForm.editPassword (Some []) = []
  /\ UserForm.createPassword (Some []) = [UserForm.tooShort].
Proof. repeat split. Qed.

(** * Further properties of the components *)

(** ** The tenant form *)

Section TenantFormFacts.

Import UserForm TenantFormComponent.

Variable toLowerCase : jsstring -> jsstring.

Lemma lengthIssues_ok (f : string) (lo hi : nat) (m1 m2 : string) (s : jsstring) :
  lengthIssues f lo hi m1 m2 s = [] <-> (lo <= length s <= hi)%nat.
Proof.
  unfold lengthIssues.
  destruct (Nat.ltb_spec (length s) lo), (Nat.ltb_spec hi (length s));
    simpl; split; intros G; try discriminate; try reflexivity; lia.
Qed.

Lemma slugPattern_generated (name : jsstring) :
  TenantForm.generateSlug toLowerCase name <> [] ->
  slugPattern (TenantForm.generateSlug toLowerCase name) = true.
Proof.
  intros Hne. destruct (generateSlug_unfold toLowerCase name) as (E & Hc & _).
  cbv zeta in *. rewrite E in *. unfold slugPattern.
  apply andb_true_iff. split.
  - now destruct (TenantForm.replaceRuns _ _ _ _).
  - apply forallb_forall. now apply List.Forall_forall.
Qed.

(** X1: a slug made by [generateSlug] is rejected by the slug member of
    [tenantFormSchema] only for its length: the schema accepts it
    exactly when it has between 2 and 50 characters, and whenever it is
    not empty the pattern issue is not raised. *)
Theorem generated_slug_fails_only_on_length (name : jsstring) :
  let s := TenantForm.generateSlug toLowerCase name in
  (slugIssues s = [] <-> (2 <= length s <= 50)%nat)
  /\ (s <> [] -> ~ In badSlug (slugIssues s)).
Proof.
  cbv zeta. split.
  - unfold slugIssues. split.
    + intros H. apply app_eq_nil in H. destruct H as [H _].
      now apply lengthIssues_ok in H.
    + intros H. rewrite (proj2 (lengthIssues_ok _ _ _ _ _ _) H).
      rewrite slugPattern_generated; [reflexivity|].
      intros E. rewrite E in H. simpl in H. lia.
  - intros Hne Hin. unfold slugIssues in Hin.
    rewrite slugPattern_generated in Hin by exact Hne.
    rewrite app_nil_r in Hin. unfold lengthIssues in Hin.
    apply in_app_or in Hin.
    destruct Hin as [Hin|Hin];
      [destruct (Nat.ltb _ 2) | destruct (Nat.ltb 50 _)];
      simpl in Hin; try tauto; destruct Hin as [Hin|[]]; discriminate Hin.
Qed.

Lemma appendToName_sync (st : TenantFormValues) (c : N) :
  slug_follows_name toLowerCase st ->
  name (appendToName toLowerCase creating st c) = name st ++ [c]
  /\ slug (appendToName toLowerCase creating st c)
     = TenantForm.generateSlug toLowerCase (name st ++ [c]).
Proof.
  intros Hs. unfold appendToName, typeName.
  destruct (decide _) as [E|_].
  { apply (f_equal (@length N)) in E. rewrite length_app in E. simpl in E. lia. }
  unfold autoSlug. cbn [name setName slug].
  replace (str_truthy (name st ++ [c])) with true by now destruct (name st).
  unfold dropLast. rewrite removelast_last.
  assert (C : negb (str_truthy (slug st))
              || jsstring_eqb (slug st)
                   (TenantForm.generateSlug toLowerCase (name st)) = true).
  { destruct Hs as [-> | E]; [reflexivity|].
    apply orb_true_iff. right. now apply js_eq_iff. }
  rewrite C. now split.
Qed.

(** X2: in create mode, while the user types the name one character
    after the other, the slug field follows: starting from a form whose
    slug is empty or generated from its name, after any keystrokes the
    slug is [generateSlug] of the whole name. *)
Theorem typed_name_keeps_slug_in_sync (st : TenantFormValues) (typed : jsstring) :
  slug_follows_name toLowerCase st ->
  typed <> [] ->
  let st' := fold_left (appendToName toLowerCase creating) typed st in
  name st' = name st ++ typed
  /\ slug st' = TenantForm.generateSlug toLowerCase (name st ++ typed).
Proof.
  intros Hs Hne. cbv zeta. revert st Hs.
  induction typed as [|c cs IH]; [contradiction|]. intros st Hs.
  destruct (appendToName_sync st c Hs) as (En & Es). simpl fold_left.
  destruct cs as [|c' cs'].
  - simpl. now split.
  - assert (Hs' : slug_follows_name toLowerCase (appendToName toLowerCase creating st c)).
    { right. now rewrite Es, En. }
    destruct (IH ltac:(discriminate) _ Hs') as (En' & Es').
    rewrite En in En', Es'. rewrite <- app_assoc in En', Es'. now split.
Qed.

(** X3: a slug edited by hand is kept: when the slug field is not
    empty and differs from the slug generated from the name without its
    last character, a change of the name leaves it as it is; and in edit
    mode no change of the name touches the slug. *)
Theorem edited_slug_is_kept (mode : FormMode) (s : jsstring)
    (st : TenantFormValues) :
  mode = editing
  \/ (slug st <> []
      /\ slug st <> TenantForm.generateSlug toLowerCase (dropLast s)) ->
  slug (typeName toLowerCase mode s st) = slug st
  /\ name (typeName toLowerCase mode s st) = s.
Proof.
  intros H. unfold typeName.
  destruct (decide _) as [->|_]; [now split|].
  destruct H as [-> | (H1 & H2)]; [now split|].
  destruct mode; [|now split]. unfold autoSlug. cbn [name setName slug].
  destruct (str_truthy s); [|now split].
  replace (str_truthy (slug st)) with true by now destruct (slug st).
  apply js_neq_iff in H2. rewrite H2. now split.
Qed.

End TenantFormFacts.

(** ** The tenant dialog *)

Section TenantDialogFacts.

Import TenantFormComponent.

Lemma tenant_payload_lookup (v : TenantFormValues) (k : string) :
  handleSubmit v !! k
  = if decide (k = "contact_phone") then Some (UserForm.orUndefined (contact_phone v))
    else if decide (k = "contact_email") then Some (UserForm.orUndefined (contact_email v))
    else if decide (k = "is_active") then Some (VBool (active v))
    else if decide (k = "slug") then Some (VStr (slug v))
    else if decide (k = "name") then Some (VStr (name v))
    else None.
Proof.
  unfold handleSubmit. rewrite !lookup_insert, lookup_singleton.
  repeat case_decide; simplify_eq; reflexivity.
Qed.

(** X4: saving the tenant form. A new tenant is created with the whole
    payload, slug included; an existing tenant is updated under its id
    with the payload without the key [slug], every other key as the form
    handed it over; and the payload never holds an empty contact e-mail
    or phone. *)
Theorem tenant_update_never_sends_slug (v : TenantFormValues)
    (api : RemoteCall -> Outcome) (qc : QueryClient) (id : jsstring) :
  let payload := handleSubmit v in
  let sent := TenantDialog.withoutSlug payload in
  (exists rest,
     log (TenantDialog.client
            (TenantDialog.handleSubmit (Some id) api payload qc))
     = log qc ++ Called (Call "tenants.update" [VStr id; TenantDialog.object sent])
                 :: rest)
  /\ sent !! "slug" = None
  /\ (forall k, k <> "slug" -> sent !! k = payload !! k)
  /\ (exists rest,
        log (TenantDialog.client
               (TenantDialog.handleSubmit None api payload qc))
        = log qc ++ Called (Call "tenants.create" [TenantDialog.object payload])
                    :: rest)
  /\ payload !! "slug" = Some (VStr (slug v))
  /\ payload !! "contact_email" <> Some (VStr [])
  /\ payload !! "contact_phone" <> Some (VStr []).
Proof.
  intros payload sent.
  split; [|split; [|split; [|split; [|split; [|split]]]]].
  - unfold TenantDialog.handleSubmit, mutateAsync. cbn -[js].
    destruct (api _); cbn -[js]; rewrite <- ?app_assoc; eauto.
  - apply lookup_delete_eq.
  - intros k Hk. unfold sent, TenantDialog.withoutSlug.
    now rewrite lookup_delete_ne.
  - unfold TenantDialog.handleSubmit, mutateAsync. cbn -[js].
    destruct (api _); cbn -[js]; rewrite <- ?app_assoc; eauto.
  - unfold payload. now rewrite tenant_payload_lookup.
  - unfold payload. rewrite tenant_payload_lookup. simpl.
    destruct (contact_email v) as [[|c s]|]; discriminate.
  - unfold payload. rewrite tenant_payload_lookup. simpl.
    destruct (contact_phone v) as [[|c s]|]; discriminate.
Qed.

End TenantDialogFacts.

(** ** The delete dialogs *)

Section DeleteTenantFacts.

Import DeleteTenantDialog.

Lemma empty_text_disabled (t : Tenant) (b : bool) :
  slug t <> [] -> actionEnabled permanent t (MkState b []) = false.
Proof.
  intros Hne. unfold actionEnabled, actionDisabled. cbn [isDeleting confirmText].
  assert (E : jsstring_eqb [] (slug t) = false) by (apply js_neq_iff; congruence).
  rewrite E. now destruct b.
Qed.

(** X5: a confirmation typed for one tenant does not carry over. After
    the dialog is closed, and after a permanent deletion has succeeded,
    the confirmation text is empty, so the permanent action is disabled
    for whatever tenant (with a non-empty slug) the dialog shows next;
    opening the dialog changes nothing. *)
Theorem confirmation_does_not_carry_over (t next : Tenant) (st : State)
    (api : RemoteCall -> Outcome) (qc : QueryClient) (d : jsval) :
  slug next <> [] ->
  actionEnabled permanent next (fst (handleOpenChange false st)) = false
  /\ (confirmText st = slug t ->
      api (Call "tenants.deletePermanent" [VStr (id t)]) = Resolved d ->
      let r := handleDelete permanent (Some t) api st qc in
      closed r = true /\ state r = initial
      /\ actionEnabled permanent next (state r) = false)
  /\ fst (handleOpenChange true st) = st.
Proof.
  intros Hne. split; [|split].
  - unfold handleOpenChange, setConfirmText. cbn [fst].
    now apply empty_text_disabled.
  - intros E Hd. cbv zeta. unfold handleDelete, mutateAsync.
    apply js_eq_iff in E. cbn -[js jsstring_eqb]. rewrite E.
    cbn -[js jsstring_eqb]. rewrite Hd. cbn -[js jsstring_eqb].
    repeat split. now apply empty_text_disabled.
  - reflexivity.
Qed.

(** X6: which remote calls [handleDelete] can make. Every call it adds
    is for the tenant shown and carries its id; the irreversible
    [deletePermanent] is called only in permanent mode and only when the
    typed text equals the slug, the reversible [delete] only in
    deactivate mode. *)
Theorem permanent_endpoint_needs_confirmation (mode : Mode)
    (tenant : option Tenant) (api : RemoteCall -> Outcome) (st : State)
    (qc : QueryClient) (c : RemoteCall) :
  In (Called c) (log (client (handleDelete mode tenant api st qc))) ->
  ~ In (Called c) (log qc) ->
  exists t,
    tenant = Some t /\ args c = [VStr (id t)]
    /\ ((endpoint c = "tenants.deletePermanent" /\ mode = permanent
         /\ confirmText st = slug t)
        \/ (endpoint c = "tenants.delete" /\ mode = deactivate)).
Proof.
  intros Hin Hold. unfold handleDelete in Hin.
  destruct tenant as [t|]; [|contradiction]. exists t.
  destruct mode.
  - unfold mutateAsync in Hin. cbn -[js] in Hin.
    destruct (api _); cbn -[js] in Hin;
      repeat (apply in_app_or in Hin; destruct Hin as [Hin|Hin]);
      try contradiction;
      repeat (destruct Hin as [Hin|Hin]; try discriminate Hin; try contradiction);
      injection Hin as <-; auto.
  - destruct (jsstring_eqb (confirmText st) (slug t)) eqn:E;
      cbn [negb] in Hin; [|contradiction].
    apply js_eq_iff in E.
    unfold mutateAsync in Hin. cbn -[js] in Hin.
    destruct (api _); cbn -[js] in Hin;
      repeat (apply in_app_or in Hin; destruct Hin as [Hin|Hin]);
      try contradiction;
      repeat (destruct Hin as [Hin|Hin]; try discriminate Hin; try contradiction);
      injection Hin as <-; auto 6.
Qed.

(** X7: a deletion that fails can be retried at once: the dialog stays
    open, the typed text is kept, no cache entry is marked stale, and
    the action is enabled again. *)
Theorem failed_delete_can_be_retried (mode : Mode) (t : Tenant)
    (api : RemoteCall -> Outcome) (st : State) (qc : QueryClient) (e : jsval) :
  (mode = deactivate \/ confirmText st = slug t) ->
  (forall c, api c = Rejected e) ->
  let r := handleDelete mode (Some t) api st qc in
  closed r = false
  /\ confirmText (state r) = confirmText st
  /\ cache (client r) = cache qc
  /\ actionEnabled mode t (state r) = true.
Proof.
  intros Hm He. cbv zeta. unfold handleDelete, mutateAsync.
  destruct mode.
  - rewrite He. cbn -[js]. repeat split.
  - destruct Hm as [Hm|Hm]; [discriminate|].
    apply js_eq_iff in Hm. rewrite Hm, He. cbn -[js jsstring_eqb].
    repeat split. unfold actionEnabled, actionDisabled.
    cbn [isDeleting confirmText]. now rewrite Hm.
Qed.

End DeleteTenantFacts.

Section DeleteClientFacts.

Import DeleteClientDialog.

(** X8: the client dialog's action is enabled exactly when no deletion
    is pending and the typed text is the client's display name, or the
    literal "this client" when the display name is empty or no client is
    given; with no client that text enables the button, yet
    [handleDelete] then does nothing. *)
Theorem client_confirmation_text (c : option Client) (text : jsstring)
    (pending : bool) (api : RemoteCall -> Outcome) (qc : QueryClient) :
  (actionDisabled c text pending = false
   <-> pending = false
       /\ text = match c with
                 | Some cl => if decide (display_name cl = [])
                              then js "this client" else display_name cl
                 | None => js "this client"
                 end)
  /\ actionDisabled None (js "this client") false = false
  /\ handleDelete None api text qc = MkRun None text qc false.
Proof.
  split; [|split; reflexivity].
  unfold actionDisabled, isConfirmed, displayName.
  rewrite orb_false_iff, negb_false_iff, js_eq_iff.
  assert (E : match c with
              | Some cl => if str_truthy (display_name cl) then display_name cl
                           else placeholderName
              | None => placeholderName
              end
              = match c with
                | Some cl => if decide (display_name cl = [])
                             then js "this client" else display_name cl
                | None => js "this client"
                end).
  { destruct c as [cl|]; [|reflexivity].
    destruct (display_name cl); [reflexivity|]. now case_decide. }
  rewrite E. tauto.
Qed.

(** X9: the client dialog's [handleDelete] does not look at the typed
    text: the confirmation only disables the button. For a client it
    always makes the one call [clients.delete(id)], and on success
    invalidates "clients" and "stats", whatever was typed. *)
Theorem client_delete_handler_ignores_text (c : Client)
    (api : RemoteCall -> Outcome) (text text' : jsstring) (qc : QueryClient) :
  client (handleDelete (Some c) api text qc)
  = client (handleDelete (Some c) api text' qc)
  /\ log (client (handleDelete (Some c) api text qc))
     = log qc ++ Called (Call "clients.delete" [VStr (id c)])
                 :: match api (Call "clients.delete" [VStr (id c)]) with
                    | Resolved _ => [Invalidated [js "clients"];
                                     Invalidated [js "stats"]]
                    | Rejected _ => []
                    end.
Proof.
  unfold handleDelete, mutateAsync. cbn -[js].
  destruct (api _); cbn -[js]; rewrite <- ?app_assoc; split; reflexivity.
Qed.

(** X10: how a client deletion ends. On success the dialog closes, the
    typed text is emptied and the toast names the client (or "Client"
    when the display name is empty). On failure the dialog stays open,
    the text is kept, no cache entry changes, and the toast shows the
    error's truthy [message] or else the fallback literal; an error that
    is [null] or [undefined] shows no toast at all. *)
Theorem client_delete_outcome (c : Client) (api : RemoteCall -> Outcome)
    (text : jsstring) (qc : QueryClient) :
  let r := handleDelete (Some c) api text qc in
  match api (Call "clients.delete" [VStr (id c)]) with
  | Resolved _ =>
      closed r = true /\ confirmText r = []
      /\ toast r = Some (ClientDialog.MkToast ClientDialog.default
                           (js "Client deleted")
                           (VStr ((if decide (display_name c = [])
                                   then js "Client" else display_name c)
                                  ++ js " has been deleted successfully.")))
  | Rejected error =>
      closed r = false /\ confirmText r = text /\ cache (client r) = cache qc
      /\ (error = VUndefined \/ error = VNull -> toast r = None)
      /\ (error <> VUndefined -> error <> VNull ->
          toast r = Some (ClientDialog.MkToast ClientDialog.destructive
                            (js "Error")
                            (if truthy (get error "message")
                             then get error "message"
                             else VStr fallbackMessage)))
  end.
Proof.
  cbv zeta. unfold handleDelete, mutateAsync. cbn -[js].
  destruct (api _) as [d|error]; cbn -[js].
  - repeat split. unfold deletedText.
    destruct (display_name c); [reflexivity|]. now case_decide.
  - repeat split.
    + now intros [-> | ->].
    + intros H1 H2. now destruct error.
Qed.

End DeleteClientFacts.

(** ** The product form and dialogs *)

Section ProductFacts.

Import ProductForm.

Lemma lookup_setIfTruthy (k k' : string) (v : option jsstring)
    (m : gmap string jsval) :
  setIfTruthy k v m !! k'
  = if decide (k = k') then
      match v with
      | Some (c :: s) => Some (VStr (c :: s))
      | _ => m !! k'
      end
    else m !! k'.
Proof.
  unfold setIfTruthy. destruct v as [[|c s]|]; simpl;
    rewrite ?lookup_insert; now case_decide.
Qed.

Ltac product_lookup :=
  unfold handleSubmit;
  repeat first
    [ rewrite lookup_setTrimmed | rewrite lookup_setIfTruthy
    | rewrite lookup_insert | rewrite lookup_singleton
    | case_decide; simplify_eq ];
  try reflexivity.

(** X11: the product payload. The seven required keys are always
    there, [name] and [category] trimmed, the others as validated; the
    optional texts [name_zh], [description], [description_zh] and
    [expected_return] are there exactly when not blank, trimmed;
    [category_id] is there when not empty, as it is; and no other key is
    ever sent. *)
Theorem product_payload_keys (data : ProductFormData) :
  let payload := handleSubmit data in
  payload !! "module_id" = Some (VStr (module_id data))
  /\ payload !! "code" = Some (VStr (code data))
  /\ payload !! "name" = Some (VStr (trim (name data)))
  /\ payload !! "category" = Some (VStr (trim (category data)))
  /\ payload !! "risk_level" = Some (VStr (js (riskLevel_name (risk_level data))))
  /\ payload !! "min_investment" = Some (min_investment data)
  /\ payload !! "currency" = Some (VStr (js (currency_name (currency data))))
  /\ payload !! "name_zh" = ClientForm.trimmedValue (name_zh data)
  /\ payload !! "description" = ClientForm.trimmedValue (description data)
  /\ payload !! "description_zh" = ClientForm.trimmedValue (description_zh data)
  /\ payload !! "expected_return" = ClientForm.trimmedValue (expected_return data)
  /\ payload !! "category_id"
     = match category_id data with
       | Some s => if decide (s = []) then None else Some (VStr s)
       | None => None
       end
  /\ (forall k, is_Some (payload !! k) ->
        In k (required_keys ++ optional_keys)).
Proof.
  cbv zeta.
  repeat match goal with |- _ /\ _ => split end.
  1-7: product_lookup.
  1-4: product_lookup;
    match goal with |- context [ClientForm.trimmedValue ?v] =>
      now destruct (ClientForm.trimmedValue v) end.
  - product_lookup; try now destruct (category_id data) as [[|c s]|].
  - intros k Hk.
    destruct (in_dec String.string_dec k (required_keys ++ optional_keys))
      as [|Hn]; [assumption|].
    exfalso. revert Hk. unfold handleSubmit.
    repeat first
      [ rewrite lookup_setTrimmed | rewrite lookup_setIfTruthy
      | rewrite lookup_insert | rewrite lookup_singleton
      | case_decide; subst; try (exfalso; apply Hn; simpl; tauto) ].
    intros [x Hx]. discriminate Hx.
Qed.

(** X12: the form checks the name as typed and submits it trimmed: a
    name made of white space only (1 to 255 characters) raises no issue
    on [name], and the payload then carries an empty [name]. *)
Theorem blank_product_name_is_accepted (data : ProductFormData) :
  name data <> [] -> (length (name data) <= 255)%nat ->
  trim (name data) = [] ->
  nameIssues (name data) = []
  /\ handleSubmit data !! "name" = Some (VStr []).
Proof.
  intros Hne Hlen Ht. split.
  - apply lengthIssues_ok. destruct (name data); [contradiction|]. simpl in *. lia.
  - rewrite <- Ht. product_lookup.
Qed.

End ProductFacts.

Section ProductDialogFacts.

Variable JSON_stringify : jsval -> jsval.
Variable createMutation updateMutation deleteMutation : MutationOptions.

(** X13: the product dialog reads an error exactly as the client dialog
    does: whenever one of them shows something taken from the error, the
    other shows the same, and they fall back to their own literals
    together. *)
Theorem product_dialog_reads_errors_like_client_dialog (error : jsval) :
  (ProductDialog.errorMessage JSON_stringify error
   = ClientDialog.errorMessage JSON_stringify error)
  \/ (ProductDialog.errorMessage JSON_stringify error
      = VStr ProductDialog.fallbackMessage
      /\ ClientDialog.errorMessage JSON_stringify error
         = VStr ClientDialog.fallbackMessage
      /\ instanceof_Error error = false
      /\ truthy (get error "message") = false
      /\ truthy (get error "detail") = false).
Proof.
  unfold ProductDialog.errorMessage, ClientDialog.errorMessage.
  destruct (instanceof_Error error) eqn:Ei; [now left|].
  destruct error; cbn [get];
    try (right; repeat split; reflexivity); try (now left).
  destruct (truthy (assoc "message" props)) eqn:Em; [now left|].
  destruct (truthy (assoc "detail" props)) eqn:Ed; [now left|].
  right. repeat split.
Qed.

(** X14: the delete-product dialog reads less of an error than the
    save dialogs: the [message] of an [Error] instance, else a truthy
    [detail], else the fallback. A thrown string and a plain object
    carrying only a [message] both end in the fallback literal, where
    the product dialog would have shown them. *)
Theorem delete_product_dialog_ignores_plain_messages (error : jsval) :
  (instanceof_Error error = true ->
     DeleteProductDialog.errorMessage JSON_stringify error = get error "message")
  /\ (instanceof_Error error = false ->
      DeleteProductDialog.errorMessage JSON_stringify error
      = if truthy (get error "detail")
        then ClientDialog.detailText JSON_stringify (get error "detail")
        else VStr DeleteProductDialog.fallbackMessage)
  /\ (forall s, error = VStr s ->
        DeleteProductDialog.errorMessage JSON_stringify error
        = VStr DeleteProductDialog.fallbackMessage
        /\ ProductDialog.errorMessage JSON_stringify error = VStr s)
  /\ (instanceof_Error error = false ->
      truthy (get error "message") = true ->
      truthy (get error "detail") = false ->
        DeleteProductDialog.errorMessage JSON_stringify error
        = VStr DeleteProductDialog.fallbackMessage
        /\ ProductDialog.errorMessage JSON_stringify error
           = get error "message").
Proof.
  unfold DeleteProductDialog.errorMessage, ProductDialog.errorMessage.
  split; [now intros ->|]. split; [now intros ->|].
  split; [now intros s ->|].
  intros -> Hm Hd. rewrite Hd. split; [reflexivity|].
  destruct error; cbn [get] in *; try discriminate. now rewrite Hm.
Qed.

End ProductDialogFacts.

(** ** The tabs of the modules layout *)

Section ModulesLayoutFacts.

Import ModulesLayout.

(** X15: tabs and routes agree. The route pushed for a tab value is
    one on which [getActiveTab] gives that value back; the tab computed
    for any path is one [handleTabChange] knows, and pushing its route
    and reading the tab again changes nothing; any other value pushes no
    route. *)
Theorem tab_and_route_round_trip (value pathname : jsstring) :
  (forall route, handleTabChange value = Some route ->
                 getActiveTab route = value)
  /\ (exists route,
        handleTabChange (getActiveTab pathname) = Some route
        /\ getActiveTab route = getActiveTab pathname)
  /\ (handleTabChange value = None <->
        value <> js "modules" /\ value <> js "products"
        /\ value <> js "categories").
Proof.
  split; [|split].
  - intros route. unfold handleTabChange.
    destruct (jsstring_eqb value (js "modules")) eqn:E1.
    { apply js_eq_iff in E1. subst. now intros [= <-]. }
    destruct (jsstring_eqb value (js "products")) eqn:E2.
    { apply js_eq_iff in E2. subst. now intros [= <-]. }
    destruct (jsstring_eqb value (js "categories")) eqn:E3.
    { apply js_eq_iff in E3. subst. now intros [= <-]. }
    discriminate.
  - unfold getActiveTab.
    destruct (includes pathname (js "/modules/products"));
      [now exists (js "/modules/products")|].
    destruct (includes pathname (js "/modules/categories"));
      [now exists (js "/modules/categories") | now exists (js "/modules")].
  - unfold handleTabChange.
    destruct (jsstring_eqb value (js "modules")) eqn:E1;
      [apply js_eq_iff in E1; split; [discriminate | tauto]|].
    destruct (jsstring_eqb value (js "products")) eqn:E2;
      [apply js_eq_iff in E2; split; [discriminate | tauto]|].
    destruct (jsstring_eqb value (js "categories")) eqn:E3;
      [apply js_eq_iff in E3; split; [discriminate | tauto]|].
    apply js_neq_iff in E1, E2, E3. tauto.
Qed.

End ModulesLayoutFacts.

(** ** Which queries a mutation makes stale *)

Section StaleQueries.

Import UseApi Bindings QueryHooks.


Lemma partialMatchKey_app (k : QueryKey) (f g : list jsstring) :
  partialMatchKey k (f ++ g) = true -> partialMatchKey k f = true.
Proof.
  revert k. induction f as [|a f IH]; intros k; [reflexivity|].
  simpl. destruct k as [|[] k]; try discriminate.
  intros H. apply andb_true_iff in H. destruct H as [H1 H2].
  rewrite H1. simpl. now apply IH.
Qed.

Lemma invalidate_subsumed (f g : list jsstring) (q : Query) :
  invalidate (f ++ g) (invalidate f q) = invalidate f q.
Proof.
  unfold invalidate at 2 3.
  destruct (partialMatchKey (queryKey q) f) eqn:E.
  - unfold invalidate. cbn [queryKey queryData].
    now destruct (partialMatchKey (queryKey q) (f ++ g)).
  - unfold invalidate.
    destruct (partialMatchKey (queryKey q) (f ++ g)) eqn:E'; [|reflexivity].
    apply partialMatchKey_app in E'. congruence.
Qed.

(** X17: in the update bindings the second invalidation, of the item
    key, changes nothing: the collection key before it has already
    marked every entry it matches, so the cache after a successful
    update is the cache after invalidating the collection key alone. *)
Theorem item_invalidation_is_subsumed (id : jsstring) (b : MutationBinding)
    (qc : QueryClient) :
  In b (api_bindings id) -> operation b = Update ->
  invalidated b = [[js (collection b)]; [js (collection b)] ++ [id]]
  /\ cache (run (onSuccess (options b)) qc)
     = cache (invalidateQueries [js (collection b)] qc).
Proof.
  intros Hb Hu. unfold api_bindings in Hb. simpl in Hb.
  repeat (destruct Hb as [<-|Hb]; try discriminate Hu); try contradiction;
    (split; [reflexivity|]);
    cbn -[js invalidate]; rewrite List.map_map; apply List.map_ext; intros q;
    apply (invalidate_subsumed [_] [id] q).
Qed.

Lemma only_marks_stale_refl (l : list Query) : only_marks_stale l l.
Proof. induction l; constructor; auto. Qed.

Lemma only_marks_stale_trans (l1 l2 l3 : list Query) :
  only_marks_stale l1 l2 -> only_marks_stale l2 l3 -> only_marks_stale l1 l3.
Proof.
  intros H. revert l3. induction H as [|q q' l l' (K & D & S) _ IH];
    intros l3 H3; inversion H3 as [|? q'' ? l'' (K' & D' & S') H3']; subst;
    constructor.
  - repeat split; [congruence | congruence | auto].
  - now apply IH.
Qed.

Lemma invalidateQueries_frame (f : list jsstring) (qc : QueryClient) :
  only_marks_stale (cache qc) (cache (invalidateQueries f qc)).
Proof.
  unfold invalidateQueries. cbn [cache].
  induction (cache qc) as [|q l IH]; simpl; constructor; [|exact IH].
  unfold invalidate. now destruct (partialMatchKey (queryKey q) f).
Qed.

Lemma fold_invalidate_frame (fs : list (list jsstring)) (qc : QueryClient) :
  only_marks_stale (cache qc)
    (cache (fold_left (fun c f => invalidateQueries f c) fs qc)).
Proof.
  revert qc. induction fs as [|f fs IH]; intros qc; simpl.
  - apply only_marks_stale_refl.
  - eapply only_marks_stale_trans; [apply invalidateQueries_frame | apply IH].
Qed.

(** X18: what a mutation never does to the cache. Whatever the remote
    call returns, a mutation of [hooks/use-api] leaves every cache entry
    in place with its key and its data, and never turns a stale entry
    fresh again: all it can do is mark entries stale. *)
Theorem mutation_only_marks_stale (id : jsstring) (b : MutationBinding)
    (api : RemoteCall -> Outcome) (input : jsval) (qc : QueryClient) :
  In b (api_bindings id) ->
  only_marks_stale (cache qc)
    (cache (snd (mutateAsync (options b) api input qc))).
Proof.
  intros Hb. apply api_bindings_incl in Hb.
  destruct (onSuccess_runs_invalidations id b
              (callRemote (mutationFn (options b) input) qc) Hb)
    as (E1 & E2 & E3).
  unfold mutateAsync. rewrite E2, E3.
  destruct (api _); cbn [snd run].
  - rewrite E1. apply (fold_invalidate_frame (invalidated b)
                         (callRemote (mutationFn (options b) input) qc)).
  - apply only_marks_stale_refl.
Qed.

End StaleQueries.

(** ** More on the user form *)

Section UserFormMore.

Import UserForm.

Variable is_email : jsstring -> bool.

Lemma baseIssues_ok (v : UserFormValues) :
  baseIssues is_email v = []
  <-> is_email (email v) = true
      /\ (1 <= length (first_name v) <= 100)%nat
      /\ (1 <= length (last_name v) <= 100)%nat.
Proof.
  unfold baseIssues.
  pose proof (lengthIssues_ok "first_name" 1 100 "First name is required"
                "First name must be less than 100 characters" (first_name v)) as F.
  pose proof (lengthIssues_ok "last_name" 1 100 "Last name is required"
                "Last name must be less than 100 characters" (last_name v)) as L.
  destruct (is_email (email v)); simpl.
  - split.
    + intros H. apply app_eq_nil in H. destruct H as [H1 H2].
      apply F in H1. apply L in H2. auto.
    + intros (_ & H1 & H2). apply F in H1. apply L in H2.
      now rewrite H1, H2.
  - split; [discriminate | intros (H & _); discriminate H].
Qed.

Lemma editPassword_ok (p : option jsstring) :
  editPassword p = []
  <-> p = None \/ p = Some []
      \/ exists s, p = Some s /\ (8 <= length s <= 100)%nat.
Proof.
  unfold editPassword. destruct p as [s|]; [|tauto].
  destruct (passwordChecks s) eqn:E.
  - apply passwordChecks_ok in E. split; [eauto|reflexivity].
  - assert (N : ~ (8 <= length s <= 100)%nat).
    { intros H. apply passwordChecks_ok in H. congruence. }
    destruct (jsstring_eqb s []) eqn:Es.
    + apply js_eq_iff in Es. subst. split; [auto | reflexivity].
    + apply js_neq_iff in Es. split; [discriminate|].
      intros [H|[H|(s' & H & H')]]; [discriminate | congruence |].
      injection H as <-. contradiction.
Qed.

(** X19: when the user form is valid. In create mode: a well-formed
    e-mail, first and last name of 1 to 100 characters and a password of
    8 to 100 characters; in edit mode the same, except that the password
    may also be missing or empty. So whatever create mode accepts, edit
    mode accepts as well. *)
Theorem user_form_validity (v : UserFormValues) :
  (schema is_email create v = []
   <-> (is_email (email v) = true
        /\ (1 <= length (first_name v) <= 100)%nat
        /\ (1 <= length (last_name v) <= 100)%nat)
       /\ exists p, password v = Some p /\ (8 <= length p <= 100)%nat)
  /\ (schema is_email edit v = []
      <-> (is_email (email v) = true
           /\ (1 <= length (first_name v) <= 100)%nat
           /\ (1 <= length (last_name v) <= 100)%nat)
          /\ (password v = None \/ password v = Some []
              \/ exists p, password v = Some p /\ (8 <= length p <= 100)%nat))
  /\ (schema is_email create v = [] -> schema is_email edit v = []).
Proof.
  assert (C : schema is_email create v = []
              <-> baseIssues is_email v = []
                  /\ exists p, password v = Some p /\ (8 <= length p <= 100)%nat).
  { simpl. unfold createUserSchema. split.
    - intros H. apply app_eq_nil in H. destruct H as [H1 H2].
      split; [exact H1|]. unfold createPassword in H2.
      destruct (password v) as [p|]; [|discriminate].
      apply passwordChecks_ok in H2. eauto.
    - intros (-> & p & -> & Hp). simpl. now apply passwordChecks_ok. }
  assert (E : schema is_email edit v = []
              <-> baseIssues is_email v = [] /\ editPassword (password v) = []).
  { simpl. unfold editUserSchema. split.
    - intros H. now apply app_eq_nil in H.
    - now intros (-> & ->). }
  rewrite C, E, editPassword_ok, baseIssues_ok.
  split; [reflexivity|]. split; [reflexivity|].
  intros (H & p & Hp). split; [exact H|]. right. right. eauto.
Qed.


End UserFormMore.

(** ** More on the client form *)

Section ClientFormMore.

Import ClientForm.

Variable is_email : jsstring -> bool.
Variable JSON_parse : jsstring -> option jsval.

Lemma event_keeps_hidden_group_empty (st st' : ClientFormData) :
  event st st' -> hidden_group_empty st -> hidden_group_empty st'.
Proof.
  intros Hev Hinv. destruct Hev as [t st|s st Hi|s st Hi|s st Hn| | | | | ];
    unfold hidden_group_empty in *; cbn; try assumption.
  - unfold changeClientType. destruct (decide _) as [_|_]; [assumption|].
    now destruct t.
  - now rewrite Hi in *.
  - now rewrite Hi in *.
  - destruct (client_type st); [contradiction | |]; assumption.
Qed.

Lemma reachable_hidden_group_empty (st : ClientFormData) :
  reachable st -> hidden_group_empty st.
Proof.
  induction 1 as [|st st' _ IH Hev]; [reflexivity|].
  now apply (event_keeps_hidden_group_empty st).
Qed.

(** X21: a new create form never mixes the two name groups. Whatever
    the user types and however often the client type is switched, the
    name group that is not shown holds empty strings, so the payload of
    an individual carries no [entity_name] and the payload of an entity
    or trust carries neither [first_name] nor [last_name]. *)
Theorem create_form_never_mixes_name_groups (st : ClientFormData) :
  reachable st ->
  hidden_group_empty st
  /\ let payload := handleSubmit JSON_parse st in
     (client_type st = individual -> payload !! "entity_name" = None)
     /\ (client_type st <> individual ->
         payload !! "first_name" = None /\ payload !! "last_name" = None).
Proof.
  intros Hr. pose proof (reachable_hidden_group_empty st Hr) as Hinv.
  split; [exact Hinv|]. cbv zeta.
  destruct (payload_fields is_email JSON_parse st) as (_ & H1 & H2 & H3 & _).
  cbv zeta in H1, H2, H3. unfold hidden_group_empty in Hinv.
  split.
  - intros Hi. rewrite Hi in Hinv. now rewrite H3, Hinv.
  - intros Hn. destruct (client_type st); [contradiction | |];
      destruct Hinv as [E1 E2]; now rewrite H1, H2, E1, E2.
Qed.

(** X22: the cross-field rule tests the names as typed, the payload
    holds them trimmed: an individual whose first name is white space
    only passes validation (given a last name and an acceptable e-mail)
    and is submitted without [first_name]. *)
Theorem blank_first_name_passes_and_is_dropped (data : ClientFormData)
    (s : jsstring) :
  client_type data = individual ->
  first_name data = Some s -> s <> [] -> trim s = [] ->
  opt_truthy (last_name data) = true ->
  emailIssues is_email (email data) = [] ->
  submit is_email JSON_parse data = inr (handleSubmit JSON_parse data)
  /\ handleSubmit JSON_parse data !! "first_name" = None.
Proof.
  intros Ht Hf Hne Htrim Hl He. split.
  - unfold submit, clientSchema, refinement. rewrite He, Ht, Hf, Hl.
    now destruct s.
  - destruct (payload_fields is_email JSON_parse data) as (_ & H1 & _).
    cbv zeta in H1. rewrite H1, Hf. unfold trimmedValue. now rewrite Htrim.
Qed.

(** X23: the client payload holds [client_type] and otherwise only
    keys of the schema: nothing else is ever sent, and none of the text
    fields is ever sent empty. *)
Theorem client_payload_has_schema_keys_only (data : ClientFormData) (k : string) :
  let payload := handleSubmit JSON_parse data in
  is_Some (payload !! "client_type")
  /\ (is_Some (payload !! k) -> In k payload_keys)
  /\ (In k ["first_name"; "last_name"; "entity_name"; "email"; "phone"] ->
      payload !! k <> Some (VStr [])).
Proof.
  cbv zeta.
  destruct (payload_fields is_email JSON_parse data)
    as (Hc & H1 & H2 & H3 & H4 & H5 & _).
  cbv zeta in Hc, H1, H2, H3, H4, H5. split; [rewrite Hc; eauto|]. split.
  - intros Hk.
    destruct (in_dec String.string_dec k payload_keys) as [|Hn]; [assumption|].
    exfalso. revert Hk. unfold handleSubmit.
    destruct (extra_data data) as [x|];
      [destruct (str_truthy (trim x)); [destruct (JSON_parse x)|]|];
      repeat first
        [ rewrite lookup_setTrimmed | rewrite lookup_setEnum
        | rewrite lookup_insert | rewrite lookup_singleton
        | case_decide; subst; try (exfalso; apply Hn; simpl; tauto) ];
      intros [y Hy]; discriminate Hy.
  - intros Hin Hk. simpl in Hin.
    destruct Hin as [<-|[<-|[<-|[<-|[<-|[]]]]]];
      match goal with
      | H : handleSubmit _ _ !! ?key = ClientForm.trimmedValue _,
        Hk : handleSubmit _ _ !! ?key = Some _ |- _ =>
          rewrite H in Hk; apply trimmedValue_some in Hk;
          destruct Hk as (s & _ & E & Hne & _); injection E as E; congruence
      end.
Qed.

End ClientFormMore.

(** ** The client dialog, from submit to close *)

Section ClientDialogMore.

Import ClientDialog.

Variable JSON_stringify : jsval -> jsval.

(** X24: one submit of the client dialog makes exactly one remote
    call, [clients.update] under the client's id when editing and
    [clients.create] otherwise; the dialog closes, with a plain toast,
    exactly when that call succeeds, and "clients" (with "stats" for a
    creation, the item key for an update) is then invalidated. *)
Theorem client_dialog_submit (editing : option jsstring)
    (api : RemoteCall -> Outcome) (data : jsval) (qc : QueryClient) :
  let call := match editing with
              | Some id => Call "clients.update" [VStr id; data]
              | None => Call "clients.create" [data]
              end in
  let r := handleSubmit JSON_stringify editing api data qc in
  log (client r)
  = log qc ++ Called call
              :: match api call, editing with
                 | Resolved _, Some id =>
                     [Invalidated [js "clients"]; Invalidated [js "clients"; id]]
                 | Resolved _, None =>
                     [Invalidated [js "clients"]; Invalidated [js "stats"]]
                 | Rejected _, _ => []
                 end
  /\ (closed r = true <-> exists d, api call = Resolved d)
  /\ (variant (toast r) = default <-> exists d, api call = Resolved d).
Proof.
  cbv zeta. unfold handleSubmit, mutateAsync.
  destruct editing as [id|]; cbn -[js invalidate];
    destruct (api _) as [d|e]; cbn -[js invalidate];
    rewrite <- ?app_assoc; (split; [reflexivity|]); split; split;
    try discriminate; try reflexivity; eauto;
    intros (? & [=]).
Qed.

End ClientDialogMore.

(** ** The further properties at concrete inputs *)

Example slug_follows_typed_name :
  let st := fold_left
              (TenantFormComponent.appendToName TenantForm.asciiLower
                 TenantFormComponent.creating)
              (js "Acme Wealth") TenantFormComponent.emptyForm in
  TenantFormComponent.slug st = js "acme-wealth".
Proof. reflexivity. Qed.

Lemma typed_name_keeps_slug_in_sync_witness :
  let st := TenantFormComponent.emptyForm in
  TenantFormComponent.slug_follows_name TenantForm.asciiLower st
  /\ js "Acme Wealth" <> []
  /\ TenantFormComponent.slug
       (fold_left (TenantFormComponent.appendToName TenantForm.asciiLower
                     TenantFormComponent.creating) (js "Acme Wealth") st)
     = TenantForm.generateSlug TenantForm.asciiLower
         (TenantFormComponent.name st ++ js "Acme Wealth").
Proof.
  intros st.
  assert (H1 : TenantFormComponent.slug_follows_name TenantForm.asciiLower st)
    by (left; reflexivity).
  assert (H2 : js "Acme Wealth" <> []) by discriminate.
  split; [exact H1|]. split; [exact H2|].
  exact (proj2 (typed_name_keeps_slug_in_sync TenantForm.asciiLower st
                  (js "Acme Wealth") H1 H2)).
Defined.

Lemma edited_slug_is_kept_witness :
  let st := TenantFormComponent.MkTenantFormValues (js "ab") (js "ab")
              (Some []) (Some []) true in
  (TenantFormComponent.creating = TenantFormComponent.editing
   \/ (TenantFormComponent.slug st <> []
       /\ TenantFormComponent.slug st
          <> TenantForm.generateSlug TenantForm.asciiLower
               (TenantFormComponent.dropLast (js "a"))))
  /\ TenantFormComponent.slug
       (TenantFormComponent.typeName TenantForm.asciiLower
          TenantFormComponent.creating (js "a") st) = js "ab"
  /\ TenantForm.generateSlug TenantForm.asciiLower (js "a") = js "a".
Proof.
  intros st.
  assert (H : TenantFormComponent.creating = TenantFormComponent.editing
              \/ (TenantFormComponent.slug st <> []
                  /\ TenantFormComponent.slug st
                     <> TenantForm.generateSlug TenantForm.asciiLower
                          (TenantFormComponent.dropLast (js "a")))).
  { right. split; discriminate. }
  split; [exact H|]. split; [|reflexivity].
  exact (proj1 (edited_slug_is_kept TenantForm.asciiLower
                  TenantFormComponent.creating (js "a") st H)).
Defined.

Lemma confirmation_does_not_carry_over_witness :
  let next := DeleteTenantDialog.MkTenant (js "t2") (js "Beta") (js "beta") in
  let st := DeleteTenantDialog.MkState false (js "acme-wealth") in
  DeleteTenantDialog.slug next <> []
  /\ DeleteTenantDialog.actionEnabled DeleteTenantDialog.permanent next
       (fst (DeleteTenantDialog.handleOpenChange false st)) = false.
Proof.
  intros next st.
  assert (H : DeleteTenantDialog.slug next <> []) by discriminate.
  split; [exact H|].
  exact (proj1 (confirmation_does_not_carry_over next next st
                  (fun _ => Resolved VNull) (MkClient [] []) VNull H)).
Defined.

Lemma permanent_endpoint_needs_confirmation_witness :
  let t := DeleteTenantDialog.MkTenant (js "t1") (js "Acme") (js "acme") in
  let st := DeleteTenantDialog.MkState false (js "acme") in
  let c := Call "tenants.deletePermanent" [VStr (js "t1")] in
  let r := DeleteTenantDialog.handleDelete DeleteTenantDialog.permanent
             (Some t) (fun _ => Resolved VNull) st (MkClient [] []) in
  In (Called c) (log (DeleteTenantDialog.client r))
  /\ ~ In (Called c) (log (MkClient [] []))
  /\ exists t',
       Some t = Some t' /\ args c = [VStr (DeleteTenantDialog.id t')]
       /\ ((endpoint c = "tenants.deletePermanent"
            /\ DeleteTenantDialog.permanent = DeleteTenantDialog.permanent
            /\ DeleteTenantDialog.confirmText st = DeleteTenantDialog.slug t')
           \/ (endpoint c = "tenants.delete"
               /\ DeleteTenantDialog.permanent = DeleteTenantDialog.deactivate)).
Proof.
  intros t st c r.
  assert (H1 : In (Called c) (log (DeleteTenantDialog.client r)))
    by (left; reflexivity).
  assert (H2 : ~ In (Called c) (log (MkClient [] []))) by (intros []).
  split; [exact H1|]. split; [exact H2|].
  exact (permanent_endpoint_needs_confirmation DeleteTenantDialog.permanent
           (Some t) (fun _ => Resolved VNull) st (MkClient [] []) c H1 H2).
Defined.

Lemma failed_delete_can_be_retried_witness :
  let t := DeleteTenantDialog.MkTenant (js "t1") (js "Acme") (js "acme") in
  let st := DeleteTenantDialog.MkState false (js "acme") in
  let api := fun _ : RemoteCall => Rejected (VStr (js "offline")) in
  (DeleteTenantDialog.permanent = DeleteTenantDialog.deactivate
   \/ DeleteTenantDialog.confirmText st = DeleteTenantDialog.slug t)
  /\ (forall c, api c = Rejected (VStr (js "offline")))
  /\ DeleteTenantDialog.actionEnabled DeleteTenantDialog.permanent t
       (DeleteTenantDialog.state
          (DeleteTenantDialog.handleDelete DeleteTenantDialog.permanent
             (Some t) api st (MkClient [] []))) = true.
Proof.
  intros t st api.
  assert (H1 : DeleteTenantDialog.permanent = DeleteTenantDialog.deactivate
               \/ DeleteTenantDialog.confirmText st = DeleteTenantDialog.slug t)
    by (right; reflexivity).
  assert (H2 : forall c, api c = Rejected (VStr (js "offline")))
    by reflexivity.
  split; [exact H1|]. split; [exact H2|].
  destruct (failed_delete_can_be_retried DeleteTenantDialog.permanent t api st
              (MkClient [] []) (VStr (js "offline")) H1 H2) as (_ & _ & _ & H).
  exact H.
Defined.

Lemma blank_product_name_is_accepted_witness :
  let data := ProductForm.MkProductFormData (js "m1") (js "bond_a") (js "  ")
                None None None (js "Bonds") None ProductForm.balanced
                (VNum 0) ProductForm.USD None in
  ProductForm.name data <> []
  /\ (length (ProductForm.name data) <= 255)%nat
  /\ trim (ProductForm.name data) = []
  /\ ProductForm.nameIssues (ProductForm.name data) = []
  /\ ProductForm.handleSubmit data !! "name" = Some (VStr []).
Proof.
  intros data.
  assert (H1 : ProductForm.name data <> []) by discriminate.
  assert (H2 : (length (ProductForm.name data) <= 255)%nat) by (simpl; lia).
  assert (H3 : trim (ProductForm.name data) = []) by reflexivity.
  split; [exact H1|]. split; [exact H2|]. split; [exact H3|].
  exact (blank_product_name_is_accepted data H1 H2 H3).
Defined.


Lemma item_invalidation_is_subsumed_witness :
  let b := Bindings.MkBinding "users" Bindings.Update
             (UseApi.useUpdateUser (js "u1")) in
  let qc := MkClient [MkQuery [VStr (js "users"); VStr (js "u1")] VNull false] [] in
  In b (Bindings.api_bindings (js "u1"))
  /\ Bindings.operation b = Bindings.Update
  /\ cache (run (onSuccess (Bindings.options b)) qc)
     = cache (invalidateQueries [js "users"] qc).
Proof.
  intros b qc.
  assert (H1 : In b (Bindings.api_bindings (js "u1"))) by (simpl; tauto).
  assert (H2 : Bindings.operation b = Bindings.Update) by reflexivity.
  split; [exact H1|]. split; [exact H2|].
  exact (proj2 (item_invalidation_is_subsumed (js "u1") b qc H1 H2)).
Defined.

Lemma mutation_only_marks_stale_witness :
  let b := Bindings.MkBinding "tenants" Bindings.Create UseApi.useCreateTenant in
  let qc := MkClient [MkQuery [VStr (js "tenants"); VUndefined] VNull false;
                      MkQuery [VStr (js "roles")] VNull true] [] in
  In b (Bindings.api_bindings (js "t1"))
  /\ only_marks_stale (cache qc)
       (cache (snd (mutateAsync (Bindings.options b)
                      (fun _ => Resolved VNull) VNull qc))).
Proof.
  intros b qc.
  assert (H1 : In b (Bindings.api_bindings (js "t1"))) by (simpl; tauto).
  split; [exact H1|].
  exact (mutation_only_marks_stale (js "t1") b (fun _ => Resolved VNull)
           VNull qc H1).
Defined.

Lemma create_form_never_mixes_name_groups_witness :
  let st :=
    ClientForm.typeEntityName (js "ABC Corporation")
      (ClientForm.changeClientType ClientForm.create ClientForm.entity
         (ClientForm.typeFirstName (js "Ada")
            (ClientForm.resetNameFields ClientForm.create
               (ClientForm.defaultValues ClientForm.create)))) in
  ClientForm.reachable st
  /\ ClientForm.handleSubmit (fun _ => None) st !! "first_name" = None
  /\ ClientForm.handleSubmit (fun _ => None) st !! "entity_name"
     = Some (VStr (js "ABC Corporation")).
Proof.
  intros st.
  assert (H : ClientForm.reachable st).
  { eapply ClientForm.reach_event;
      [eapply ClientForm.reach_event;
         [eapply ClientForm.reach_event; [apply ClientForm.reach_initial|]|]|].
    - apply ClientForm.type_first. reflexivity.
    - apply ClientForm.pick_type.
    - apply ClientForm.type_entity. discriminate. }
  split; [exact H|]. split; [|reflexivity].
  destruct (create_form_never_mixes_name_groups hasAtSign (fun _ => None) st H)
    as (_ & _ & Hn).
  exact (proj1 (Hn ltac:(discriminate))).
Defined.

Lemma blank_first_name_passes_and_is_dropped_witness :
  let data :=
    ClientForm.MkClientFormData ClientForm.individual (Some (js " "))
      (Some (js "Doe")) (Some []) (Some []) (Some []) None
      (Some ClientForm.pending) (Some []) in
  ClientForm.client_type data = ClientForm.individual
  /\ ClientForm.first_name data = Some (js " ")
  /\ js " " <> [] /\ trim (js " ") = []
  /\ opt_truthy (ClientForm.last_name data) = true
  /\ ClientForm.emailIssues hasAtSign (ClientForm.email data) = []
  /\ ClientForm.submit hasAtSign (fun _ => None) data
     = inr (ClientForm.handleSubmit (fun _ => None) data)
  /\ ClientForm.handleSubmit (fun _ => None) data !! "first_name" = None.
Proof.
  intros data.
  assert (H3 : js " " <> []) by discriminate.
  repeat (split; [first [reflexivity | exact H3]|]).
  exact (proj2 (blank_first_name_passes_and_is_dropped hasAtSign
                  (fun _ => None) data (js " ") eq_refl eq_refl H3 eq_refl
                  eq_refl eq_refl)).
Defined.
